(** * Listing scraper: status registry, phone candidates and record pipeline

    A shallow embedding of [scraping/basic_playground/status_codes.py] and
    [scraping/basic_playground/main.py], and the properties of the pipeline
    contract proved over it.

    Conventions of the embedding.
    - A Python [str] is a [string]; a character is read as the code point of
      that number (0 to 255), with Python's classification of those code
      points ([str.isspace], and the regular expression classes [\d], [\s],
      [\w] of a [str] pattern).
    - A Python [dict] is an association list in insertion order with unique
      keys ([Dict]); [None] is [JNull] inside a record and [None] of an
      [option] elsewhere.
    - The crawler, the Gemini client, the clock and the file system are
      collaborators: their answers come from an abstract world that is
      threaded through the run, with the log of what the run did to them.
      A call to the crawler or to the Gemini client may raise, and so may
      the start and the close of the browser session and the write of the
      output file; the clock does not.
    - [print] narrates to the operator and is left out: it changes no value
      the pipeline computes. *)

From Stdlib Require Import List String Ascii ZArith Bool Arith Lia Floats.
From Equations Require Import Equations.
Import ListNotations.
Open Scope string_scope.
Open Scope list_scope.
Set Warnings "-register-all".

(* ================================================================== *)
(** ** Python strings *)

Module PyStr.
Local Open Scope nat_scope.

(** [str.isspace] of one character (code points below 256): TAB to CR, the
    separators FS to US, SPACE, NEL and NBSP. *)
Definition isspace (c : ascii) : bool :=
  let n := nat_of_ascii c in
  ((9 <=? n) && (n <=? 13)) || ((28 <=? n) && (n <=? 32))
  || (n =? 133) || (n =? 160).

(** [\d] of a [str] pattern: the decimal digits (below 256 only 0 to 9). *)
Definition isdecimal (c : ascii) : bool :=
  let n := nat_of_ascii c in (48 <=? n) && (n <=? 57).

(** [str.isalnum] of one character below 256: letters, decimal digits, and
    the superscript digits and vulgar fractions that are numeric. *)
Definition isalnum (c : ascii) : bool :=
  let n := nat_of_ascii c in
  ((48 <=? n) && (n <=? 57)) || ((65 <=? n) && (n <=? 90))
  || ((97 <=? n) && (n <=? 122))
  || (n =? 170) || (n =? 178) || (n =? 179) || (n =? 181)
  || ((185 <=? n) && (n <=? 186)) || ((188 <=? n) && (n <=? 190))
  || ((192 <=? n) && (n <=? 214)) || ((216 <=? n) && (n <=? 246))
  || ((248 <=? n) && (n <=? 255)).

(** [\w] of a [str] pattern: alphanumeric or the underscore. *)
Definition isword (c : ascii) : bool := isalnum c || (nat_of_ascii c =? 95).

Fixpoint lstrip (s : string) : string :=
  match s with
  | String c t => if isspace c then lstrip t else s
  | EmptyString => EmptyString
  end.

(** [rstrip] keeps a character when it is no space or when something
    remains after it. *)
Fixpoint rstrip (s : string) : string :=
  match s with
  | String c t =>
      match rstrip t with
      | EmptyString => if isspace c then EmptyString else String c EmptyString
      | t' => String c t'
      end
  | EmptyString => EmptyString
  end.

(** [s.strip()] *)
Definition strip (s : string) : string := rstrip (lstrip s).

(** [s.startswith(p)] *)
Fixpoint startswith (p s : string) : bool :=
  match p, s with
  | EmptyString, _ => true
  | String a p', String b s' => Ascii.eqb a b && startswith p' s'
  | String _ _, EmptyString => false
  end.

(** The first [n] characters, and what follows them. *)
Fixpoint take (n : nat) (s : string) : string :=
  match n, s with
  | S n', String c t => String c (take n' t)
  | _, _ => EmptyString
  end.

Fixpoint drop (n : nat) (s : string) : string :=
  match n, s with
  | S n', String _ t => drop n' t
  | _, _ => s
  end.

(** [s[i:i+n]] *)
Definition slice (i n : nat) (s : string) : string := take n (drop i s).

(** [s[:n]] for any integer [n]: a negative [n] counts from the end. *)
Definition slice_to (n : Z) (s : string) : string :=
  if (0 <=? n)%Z then take (Z.to_nat n) s
  else take (Z.to_nat (Z.of_nat (String.length s) + n)) s.

(** Truth value of a [str]: non-empty. *)
Definition truthy (s : string) : bool :=
  match s with EmptyString => false | _ => true end.

(** [o or ""] for an attribute that is a [str] or [None]. *)
Definition or_empty (o : option string) : string :=
  match o with Some s => s | None => EmptyString end.

Definition head (s : string) : option ascii :=
  match s with String c _ => Some c | EmptyString => None end.

Fixpoint last_or (d : option ascii) (s : string) : option ascii :=
  match s with String c t => last_or (Some c) t | EmptyString => d end.

End PyStr.

(* ================================================================== *)
(** ** The regular expressions of the phone patterns

    The four patterns are sequences of word boundaries and greedy bounded
    repetitions of one character class; [match_here] is the backtracking
    matcher of Python's [re] on such a sequence: a repetition first takes as
    many characters as it can (at most [hi]) and gives them back one at a
    time, down to [lo], until the rest of the pattern matches. *)

Module Re.
Import PyStr.
Local Open Scope nat_scope.

Inductive cclass : Type :=
| Lit (c : ascii)        (* a literal character *)
| Digit                  (* \d *)
| DashOrSpace.           (* [-\s] *)

Definition cls_match (k : cclass) (c : ascii) : bool :=
  match k with
  | Lit a => Ascii.eqb a c
  | Digit => isdecimal c
  | DashOrSpace => Ascii.eqb "-"%char c || isspace c
  end.

Inductive item : Type :=
| Boundary                                   (* \b *)
| Rep (k : cclass) (lo hi : nat).            (* k{lo,hi}, greedy *)

Definition pattern := list item.

Definition one (k : cclass) : item := Rep k 1 1.
Definition opt (k : cclass) : item := Rep k 0 1.

Definition word_at (o : option ascii) : bool :=
  match o with Some c => isword c | None => false end.

(** [\b] between the character before the position and the one at it. *)
Definition at_boundary (prev : option ascii) (s : string) : bool :=
  xorb (word_at prev) (word_at (head s)).

(** How many leading characters of [s] are in the class, at most [hi]. *)
Fixpoint run (k : cclass) (hi : nat) (s : string) : nat :=
  match hi, s with
  | S h, String c t => if cls_match k c then S (run k h t) else 0
  | _, _ => 0
  end.

(** The first of [f n], [f (n-1)], ..., [f lo] that succeeds. *)
Fixpoint first_down (f : nat -> option nat) (lo n : nat) : option nat :=
  if n <? lo then None
  else match f n with
       | Some r => Some r
       | None => match n with
                 | O => None
                 | S n' => first_down f lo n'
                 end
       end.

(** The length of the match of [p] that starts at the head of [s], where
    [prev] is the character before it in the whole text. *)
Fixpoint match_here (p : pattern) (prev : option ascii) (s : string)
  : option nat :=
  match p with
  | [] => Some 0
  | Boundary :: rest =>
      if at_boundary prev s then match_here rest prev s else None
  | Rep k lo hi :: rest =>
      first_down
        (fun n =>
           match match_here rest (last_or prev (take n s)) (drop n s) with
           | Some r => Some (n + r)
           | None => None
           end)
        lo (run k hi s)
  end.

(** The spans [(start, length)] of [re.finditer]: the text is scanned from
    left to right, a match is looked for at every position that is not
    inside the previous match, and the search resumes where a match ended.
    [skip] counts the characters of the last match still to pass. *)
Fixpoint scan (p : pattern) (prev : option ascii) (s : string)
         (pos skip : nat) {struct s} : list (nat * nat) :=
  match skip with
  | S k =>
      match s with
      | String c t => scan p (Some c) t (S pos) k
      | EmptyString => []
      end
  | O =>
      let here := match_here p prev s in
      let found := match here with Some n => [(pos, n)] | None => [] end in
      let skip' := match here with Some n => pred n | None => 0 end in
      found ++ match s with
               | String c t => scan p (Some c) t (S pos) skip'
               | EmptyString => []
               end
  end.

Definition spans (p : pattern) (s : string) : list (nat * nat) :=
  scan p None s 0 0.

(** [[m.group(0) for m in re.finditer(p, s)]] *)
Definition finditer (p : pattern) (s : string) : list string :=
  map (fun sp => slice (fst sp) (snd sp) s) (spans p s).

End Re.

(* ================================================================== *)
(** ** Phone candidates *)

Definition phone_patterns : list Re.pattern :=
  let lit c := Re.one (Re.Lit c) in
  let d := Re.one Re.Digit in
  [ (* \b01\d[-\s]?\d{3}[-\s]?\d{4}\b *)
    [Re.Boundary; lit "0"%char; lit "1"%char; d; Re.opt Re.DashOrSpace;
     Re.Rep Re.Digit 3 3; Re.opt Re.DashOrSpace; Re.Rep Re.Digit 4 4;
     Re.Boundary];
    (* \b01\d\d{7,8}\b *)
    [Re.Boundary; lit "0"%char; lit "1"%char; d; Re.Rep Re.Digit 7 8;
     Re.Boundary];
    (* \b0\d{1,2}-\d{6,8}\b *)
    [Re.Boundary; lit "0"%char; Re.Rep Re.Digit 1 2; lit "-"%char;
     Re.Rep Re.Digit 6 8; Re.Boundary];
    (* \b6\d{8,11}\b *)
    [Re.Boundary; lit "6"%char; Re.Rep Re.Digit 8 11; Re.Boundary] ].

(** [val in candidates] *)
Definition str_in (x : string) (l : list string) : bool :=
  existsb (String.eqb x) l.

Definition extract_phone_candidates_from_html (raw_html : string)
  : list string :=
  fold_left
    (fun candidates pat =>
       fold_left
         (fun candidates m =>
            let val := PyStr.strip m in
            if str_in val candidates then candidates
            else candidates ++ [val])
         (Re.finditer pat raw_html) candidates)
    phone_patterns [].

(** The list with every repeat of an earlier element dropped. *)
Fixpoint first_seen (l : list string) : list string :=
  match l with
  | [] => []
  | x :: t => x :: filter (fun y => negb (String.eqb x y)) (first_seen t)
  end.

(* ================================================================== *)
(** ** Dictionaries and JSON values *)

Module Dict.

Definition dict (V : Type) : Type := list (string * V).

(** [d.get(k)] *)
Fixpoint get {V} (d : dict V) (k : string) : option V :=
  match d with
  | [] => None
  | (k', v) :: rest => if String.eqb k' k then Some v else get rest k
  end.

(** [d[k] = v]: the value of an existing key is replaced where it stands,
    a new key goes to the end. *)
Fixpoint set {V} (d : dict V) (k : string) (v : V) : dict V :=
  match d with
  | [] => [(k, v)]
  | (k', v') :: rest =>
      if String.eqb k' k then (k', v) :: rest else (k', v') :: set rest k v
  end.

Definition keys {V} (d : dict V) : list string := map fst d.

End Dict.

(** What [json.loads] returns and [json.dumps] takes. *)
Inductive json : Type :=
| JNull
| JBool (b : bool)
| JInt (n : Z)
| JFloat (f : float)
| JStr (s : string)
| JArr (l : list json)
| JObj (d : list (string * json)).

Definition record : Type := Dict.dict json.

Definition opt_json {A} (f : A -> json) (o : option A) : json :=
  match o with Some a => f a | None => JNull end.

(** Exceptions (instances of [Exception]) the pipeline raises or receives
    from a collaborator. *)
Inductive exn : Type :=
| FileNotFoundError (msg : string)
| RuntimeError (msg : string)
| ValueError (msg : string)
| KeyError (key : string)
| AttributeError (msg : string)
| OSError (msg : string)
| CollaboratorError (msg : string).

Inductive outcome (A : Type) : Type :=
| Return (a : A)
| Raise (e : exn).
Arguments Return {A} a.
Arguments Raise {A} e.

(* ================================================================== *)
(** ** status_codes.py *)

Record StatusRow : Type := mkRow {
  cd_std : string;
  cd_name : string;
  cd_desc : string
}.

Definition STATUS_DEFINITIONS : list StatusRow :=
  [ mkRow "000000" "SUCCESS"
      "Request completed successfully with a high-confidence extraction result.";
    mkRow "000050" "PARTIAL_SUCCESS"
      "Request completed but some fields are missing, low-confidence, or degraded.";
    mkRow "000100" "CRAWL_FAILED"
      "Generic crawl failure (navigation, page load, or unknown browser error).";
    mkRow "000101" "NO_CONTENT_EXTRACTED"
      "Page loaded but no usable content could be extracted (empty or stripped body).";
    mkRow "000102" "CRAWL_TIMEOUT"
      "Crawl exceeded the configured timeout before the wait condition was satisfied.";
    mkRow "000103" "CRAWL_INTERACTION_ERROR"
      "Crawl failed during page interaction (clicks/JS execution/scrolling).";
    mkRow "000104" "CRAWL_HTTP_ERROR"
      "Crawl received a non-2xx HTTP status code from the target URL.";
    mkRow "000105" "CRAWL_BLOCKED_OR_CAPTCHA"
      "Crawl appears to be blocked by anti-bot measures, CAPTCHA, or similar protection.";
    mkRow "000200" "GEMINI_CALL_FAILED"
      "Generic Gemini API failure (network, service, or SDK-level error).";
    mkRow "000201" "GEMINI_JSON_PARSE_FAILED"
      "Gemini returned a response that could not be parsed as the expected JSON schema.";
    mkRow "000202" "GEMINI_RATE_LIMITED"
      "Gemini request was rejected due to rate limiting or quota exhaustion.";
    mkRow "000203" "GEMINI_AUTH_FAILED"
      "Gemini request failed due to invalid or missing authentication credentials.";
    mkRow "000204" "GEMINI_MODEL_NOT_FOUND"
      "Requested Gemini model does not exist or is not available to this project.";
    mkRow "000205" "GEMINI_INVALID_OUTPUT_SCHEMA"
      "Gemini returned structured output that violates the declared JSON schema.";
    mkRow "000300" "CONFIG_ERROR"
      "Generic configuration error (invalid settings or incompatible options).";
    mkRow "000301" "CONFIG_MISSING_ENV"
      "Required environment variable is missing (e.g. GEMINI_API_KEY).";
    mkRow "000302" "CONFIG_INVALID_ENV_VALUE"
      "Environment variable is present but has an invalid or unsupported value.";
    mkRow "000400" "INPUT_ERROR"
      "Generic input error (malformed data or unsupported format).";
    mkRow "000401" "INPUT_URL_LIST_EMPTY"
      "No URLs were provided for processing (urls.txt empty or filtered out).";
    mkRow "000402" "INPUT_URL_INVALID"
      "One or more URLs are invalid, malformed, or use an unsupported scheme.";
    mkRow "000500" "SYSTEM_ERROR"
      "Generic system/runtime error (unexpected exception in the pipeline).";
    mkRow "000501" "SYSTEM_IO_ERROR"
      "Filesystem or I/O operation failed (read/write permissions, missing file, etc.).";
    mkRow "000502" "SYSTEM_DEPENDENCY_MISSING"
      "Required library, binary, or runtime dependency is missing or not installed.";
    mkRow "000999" "UNEXPECTED_ERROR"
      "An unexpected, uncategorised error occurred that does not match other codes." ].

(** [{row[key]: row for row in rows}]: a later row replaces an earlier one
    of the same key. *)
Definition index_by (key : StatusRow -> string) (rows : list StatusRow)
  : Dict.dict StatusRow :=
  fold_left (fun d row => Dict.set d (key row) row) rows [].

Definition STATUS_BY_NAME : Dict.dict StatusRow :=
  index_by cd_name STATUS_DEFINITIONS.

Definition STATUS_BY_CODE : Dict.dict StatusRow :=
  index_by cd_std STATUS_DEFINITIONS.

(** [d[k]], which raises [KeyError] on a missing key. *)
Definition subscript {V} (d : Dict.dict V) (k : string) : outcome V :=
  match Dict.get d k with
  | Some v => Return v
  | None => Raise (KeyError k)
  end.

(** [STATUS_BY_NAME.get(status_name, STATUS_BY_NAME["UNEXPECTED_ERROR"])]:
    the default is evaluated before the call. *)
Definition _status_row (status_name : string) : outcome StatusRow :=
  match subscript STATUS_BY_NAME "UNEXPECTED_ERROR" with
  | Raise e => Raise e
  | Return fallback =>
      Return (match Dict.get STATUS_BY_NAME status_name with
              | Some row => row
              | None => fallback
              end)
  end.

(** The row of the registry the spec calls the UNEXPECTED_ERROR definition. *)
Definition UNEXPECTED_ERROR : StatusRow :=
  mkRow "000999" "UNEXPECTED_ERROR"
    "An unexpected, uncategorised error occurred that does not match other codes.".

(* ================================================================== *)
(** ** Schema and helpers of main.py *)

Definition FIELD_NAMES : list string :=
  [ "url"; "listing_title"; "project_name"; "area"; "state"; "price";
    "sq_ft"; "bedrooms"; "bathrooms"; "property_type"; "carpark";
    "floor_range"; "phone_number"; "description" ].

(** [{k: (url if k == "url" else None) for k in FIELD_NAMES}] *)
Definition empty_record (url : string) : record :=
  fold_left
    (fun d k => Dict.set d k (if String.eqb k "url" then JStr url else JNull))
    FIELD_NAMES [].

Record Usage : Type := mkUsage {
  prompt_token_count : option Z;
  candidates_token_count : option Z;
  total_token_count : option Z
}.

Record GeminiMeta : Type := mkMeta {
  status_key : string;
  status_code : string;
  gemini_model : option string;
  gemini_attempts : Z;
  gemini_prompt_tokens : option Z;
  gemini_response_tokens : option Z;
  gemini_total_tokens : option Z;
  gemini_duration_sec : option float;
  crawl_duration_sec : option float;
  total_duration_sec : option float;
  timestamp_utc : option string
}.

(** [dataclasses.asdict] *)
Definition asdict (m : GeminiMeta) : json :=
  JObj
    [ ("status_key", JStr (status_key m));
      ("status_code", JStr (status_code m));
      ("gemini_model", opt_json JStr (gemini_model m));
      ("gemini_attempts", JInt (gemini_attempts m));
      ("gemini_prompt_tokens", opt_json JInt (gemini_prompt_tokens m));
      ("gemini_response_tokens", opt_json JInt (gemini_response_tokens m));
      ("gemini_total_tokens", opt_json JInt (gemini_total_tokens m));
      ("gemini_duration_sec", opt_json JFloat (gemini_duration_sec m));
      ("crawl_duration_sec", opt_json JFloat (crawl_duration_sec m));
      ("total_duration_sec", opt_json JFloat (total_duration_sec m));
      ("timestamp_utc", opt_json JStr (timestamp_utc m)) ].

(** [data.get(k, None)]: only a [dict] has the method. *)
Definition py_get (data : json) (k : string) : outcome json :=
  match data with
  | JObj d => Return (match Dict.get d k with Some v => v | None => JNull end)
  | _ => Raise (AttributeError "object has no attribute 'get'")
  end.

(** The loop [for k in FIELD_NAMES: record[k] = ...] of a successful
    attempt. *)
Fixpoint fill_record (url : string) (data : json) (ks : list string)
         (rec : record) : outcome record :=
  match ks with
  | [] => Return rec
  | k :: ks' =>
      if String.eqb k "url" then fill_record url data ks' (Dict.set rec k (JStr url))
      else match py_get data k with
           | Return v => fill_record url data ks' (Dict.set rec k v)
           | Raise e => Raise e
           end
  end.

(* ================================================================== *)
(** ** Collaborators and effects *)

(** What [crawler.arun] returns: the attributes the pipeline reads. An
    attribute that holds text may also be [None]. *)
Record Markdown : Type := mkMarkdown {
  raw_markdown : option string;
  fit_markdown : option string
}.

Record CrawlResult : Type := mkCrawl {
  success : bool;
  error_message : option string;
  html : option string;
  cleaned_html : option string;
  markdown : option Markdown
}.

(** What [client.models.generate_content] returns. *)
Record Response : Type := mkResponse {
  text : option string;
  usage_metadata : option Usage
}.

Record Client : Type := mkClient { api_key : string }.

(** What the run does to the outside, in the order it does it. *)
Inductive event : Type :=
| EvGetenv (name : string)
| EvCrawl (url : string)
| EvGenerate (model : string) (phone_candidates : list string) (content : string)
| EvWriteOutput (path : string) (results : list record)
| EvCrawlerStart
| EvCrawlerClose.

(* ================================================================== *)
(** ** A small world to run the pipeline in

    Three pages, a model that answers two of them, a fixed clock and a
    parser for the texts that model returns. *)

Module Demo.

Definition listing_url : string := "https://ok.example/listing".
Definition thin_url : string := "https://thin.example/listing".
Definition down_url : string := "https://down.example/listing".

(** A page with all three representations. *)
Definition listing_page : CrawlResult :=
  mkCrawl true None (Some "<p>Call 017-787 0260 now</p>") (Some "<p>Call</p>")
          (Some (mkMarkdown (Some "Listing") None)).

(** A page without structured text. *)
Definition thin_page : CrawlResult :=
  mkCrawl true None (Some "<i>raw</i>") (Some "cleaned")
          (Some (mkMarkdown (Some "") None)).

Definition blocked_page : CrawlResult :=
  mkCrawl false (Some "blocked") None None None.

(** The world counts the calls the collaborators answered. *)
Definition arun (url : string) (w : nat) : outcome CrawlResult * nat :=
  if String.eqb url listing_url then (Return listing_page, S w)
  else if String.eqb url thin_url then (Return thin_page, S w)
  else if String.eqb url down_url then (Raise (CollaboratorError "timeout"), S w)
  else (Return blocked_page, S w).

Definition generate_content (client : Client) (model : string)
           (phone_candidates : list string) (content : string) (w : nat)
  : outcome Response * nat :=
  if String.eqb content "Listing" then
    (Return (mkResponse (Some " {} ")
                        (Some (mkUsage (Some 10%Z) (Some 5%Z) (Some 15%Z)))),
     S w)
  else if String.eqb content "cleaned" then
    (Return (mkResponse (Some "I cannot help with that") None), S w)
  else (Raise (CollaboratorError "503"), S w).

(** A model that is out of reach for the first call and answers then. *)
Definition flaky_generate_content (client : Client) (model : string)
           (phone_candidates : list string) (content : string) (w : nat)
  : outcome Response * nat :=
  if Nat.eqb w 0 then (Raise (CollaboratorError "503"), S w)
  else (Return (mkResponse (Some "{}")
                           (Some (mkUsage (Some 7%Z) (Some 3%Z) (Some 10%Z)))),
        S w).

(** A model whose first answer is no JSON and whose second one reports no
    usage. *)
Definition terse_generate_content (client : Client) (model : string)
           (phone_candidates : list string) (content : string) (w : nat)
  : outcome Response * nat :=
  if Nat.eqb w 0 then
    (Return (mkResponse (Some "Sorry?")
                        (Some (mkUsage (Some 7%Z) (Some 3%Z) (Some 10%Z)))),
     S w)
  else (Return (mkResponse (Some "{}") None), S w).

Definition perf_counter (w : nat) : float * nat := (1.5%float, w).

Definition utcnow_isoformat (w : nat) : string * nat :=
  ("2025-01-01T00:00:00", w).

(** The parser on the texts of this world. *)
Definition json_loads (t : string) : option json :=
  if String.eqb t "{}" then Some (JObj [])
  else if String.eqb t "[]" then Some (JArr [])
  else None.

Definition environ (name : string) : option string :=
  if String.eqb name "GOOGLE_API_KEY" then Some "secret" else None.

Definition no_environ (name : string) : option string := None.

Definition crawler_start (w : nat) : outcome unit * nat := (Return tt, w).

Definition crawler_close (w : nat) : outcome unit * nat := (Return tt, w).

(** Writing fails on a file name that names no file. *)
Definition write_text (path : string) (results : list record) (w : nat)
  : outcome unit * nat :=
  if String.eqb path "" then (Raise (OSError "Is a directory"), w)
  else (Return tt, S w).

Definition client : Client := mkClient "secret".

Definition urls_txt : list string :=
  [ "# listings"; ""; " https://ok.example/listing "; "   ";
    "https://down.example/listing" ].

Definition comments_txt : list string :=
  [ "# listings"; "   "; ""; "#https://ok.example/listing" ].

End Demo.

Section Pipeline.

Set Default Proof Using "Type".

(** The outside world: pages, the model, the clock. *)
Variable World : Type.

(** [await crawler.arun(url=url, config=run_config)] *)
Variable arun : string -> World -> outcome CrawlResult * World.

(** Entering and leaving [async with AsyncWebCrawler(config=browser_conf)]:
    the browser session is started and closed. *)
Variable crawler_start : World -> outcome unit * World.
Variable crawler_close : World -> outcome unit * World.

(** [output_path.write_text(json.dumps(results, indent=2,
    ensure_ascii=False))], for the file name and the results. *)
Variable write_text : string -> list record -> World -> outcome unit * World.

(** [client.models.generate_content(model, contents, config)]; the prompt
    is a fixed text around the phone candidates and the page content, which
    stand for it here. *)
Variable generate_content :
  Client -> string -> list string -> string -> World -> outcome Response * World.

(** [time.perf_counter()] and [datetime.utcnow().isoformat(...)] *)
Variable perf_counter : World -> float * World.
Variable utcnow_isoformat : World -> string * World.

(** [json.loads]; [None] is a [JSONDecodeError]. *)
Variable json_loads : string -> option json.

(** [os.getenv] *)
Variable environ : string -> option string.

(** Configuration read from the environment when the module is loaded. *)
Variable OUTPUT_FILE : string.
Variable MAX_CONTENT_CHARS : Z.
Variable GEMINI_MODEL : string.
Variable GEMINI_MAX_ATTEMPTS : Z.

Record state : Type := mkState {
  world : World;
  events : list event
}.

(** Computations that read and change the world and may raise. *)
Definition M (A : Type) : Type := state -> outcome A * state.

Definition ret {A} (a : A) : M A := fun s => (Return a, s).

Definition raise {A} (e : exn) : M A := fun s => (Raise e, s).

Definition bind {A B} (m : M A) (k : A -> M B) : M B :=
  fun s =>
    match m s with
    | (Return a, s') => k a s'
    | (Raise e, s') => (Raise e, s')
    end.

(** The outcome of [m] as a value: what a [try] block sees. *)
Definition attempt_of {A} (m : M A) : M (outcome A) :=
  fun s => let (r, s') := m s in (Return r, s').

Definition of_outcome {A} (r : outcome A) : M A := fun s => (r, s).

Definition emit (e : event) : M unit :=
  fun s => (Return tt, mkState (world s) (events s ++ [e])).

(** A collaborator call that may raise, and one that cannot. *)
Definition call {A} (f : World -> outcome A * World) : M A :=
  fun s => let (r, w) := f (world s) in (r, mkState w (events s)).

Definition ask {A} (f : World -> A * World) : M A :=
  fun s => let (a, w) := f (world s) in (Return a, mkState w (events s)).

Notation "x <- m ;; k" := (bind m (fun x => k))
  (at level 61, m at next level, right associativity).
Notation "m ;;; k" := (bind m (fun _ => k))
  (at level 61, right associativity).

Definition getenv (name : string) : M (option string) :=
  emit (EvGetenv name) ;;; ret (environ name).

Definition crawler_arun (url : string) : M CrawlResult :=
  emit (EvCrawl url) ;;; call (arun url).

Definition models_generate_content (client : Client)
           (phone_candidates : list string) (content : string) : M Response :=
  emit (EvGenerate GEMINI_MODEL phone_candidates content) ;;;
  call (generate_content client GEMINI_MODEL phone_candidates content).

(** [output_path.write_text(json.dumps(results, ...))]: the event tells
    that the write was begun, the outcome whether it went through. *)
Definition write_output (results : list record) : M unit :=
  emit (EvWriteOutput OUTPUT_FILE results) ;;;
  call (write_text OUTPUT_FILE results).

(** [async with AsyncWebCrawler(...) as crawler: body]: the session is
    closed when the body is left, also by an exception, and an exception of
    the body goes on after that. *)
Definition with_crawler {A} (body : M A) : M A :=
  emit EvCrawlerStart ;;;
  call crawler_start ;;;
  r <- attempt_of body ;;
  emit EvCrawlerClose ;;;
  call crawler_close ;;;
  of_outcome r.

(* ---------------------------------------------------------------- *)
(** *** Gemini client *)

Definition opt_truthy (o : option string) : bool :=
  match o with Some s => PyStr.truthy s | None => false end.

Definition configure_gemini_client : M Client :=
  k1 <- getenv "GEMINI_API_KEY" ;;
  key <- (if opt_truthy k1 then ret k1 else getenv "GOOGLE_API_KEY") ;;
  match key with
  | Some k =>
      if PyStr.truthy k then ret (mkClient k)
      else raise (RuntimeError "GEMINI_API_KEY (or GOOGLE_API_KEY) is not set.")
  | None => raise (RuntimeError "GEMINI_API_KEY (or GOOGLE_API_KEY) is not set.")
  end.

(* ---------------------------------------------------------------- *)
(** *** Fetch *)

(** [getattr(getattr(result, "markdown", None), "raw_markdown", "") or ""] *)
Definition raw_md_of (result : CrawlResult) : string :=
  match markdown result with
  | Some md => PyStr.or_empty (raw_markdown md)
  | None => ""
  end.

Definition fetch_page_text_and_html (url : string)
  : M (string * string * float) :=
  let url := PyStr.strip url in
  if negb (PyStr.truthy url) then raise (ValueError "Empty URL")
  else
    t0 <- ask perf_counter ;;
    result <- crawler_arun url ;;
    t1 <- ask perf_counter ;;
    let crawl_duration := PrimFloat.sub t1 t0 in
    if negb (success result) then raise (RuntimeError "Crawl failed")
    else
      let raw_html := PyStr.or_empty (html result) in
      let cleaned_html := PyStr.or_empty (cleaned_html result) in
      let raw_md := raw_md_of result in
      let page_text :=
        if PyStr.truthy raw_md then raw_md
        else if PyStr.truthy cleaned_html then cleaned_html
        else raw_html in
      ret (page_text, raw_html, crawl_duration).

(* ---------------------------------------------------------------- *)
(** *** Meta *)

Definition usage_get (usage : option Usage) (f : Usage -> option Z)
  : option Z :=
  match usage with Some u => f u | None => None end.

Definition make_meta (status_name : string)
           (crawl_duration_sec total_duration_sec : option float)
           (gemini_model : option string) (attempts : Z)
           (usage : option Usage) (gemini_duration_sec : option float)
  : M json :=
  row <- of_outcome (_status_row status_name) ;;
  now <- ask utcnow_isoformat ;;
  let ts := (now ++ "Z")%string in
  ret (asdict
         (mkMeta (cd_name row) (cd_std row) gemini_model attempts
                 (usage_get usage prompt_token_count)
                 (usage_get usage candidates_token_count)
                 (usage_get usage total_token_count)
                 gemini_duration_sec crawl_duration_sec total_duration_sec
                 (Some ts))).

(* ---------------------------------------------------------------- *)
(** *** Gemini extraction *)

(** The variables the retry loop carries from one attempt to the next. *)
Record loop_vars : Type := mkVars {
  attempts : Z;
  usage : option Usage;
  gemini_duration : option float
}.

(** One pass through the body of the [while]: [attempts] is already
    incremented. The body is a [try] whose handler only goes on to the next
    iteration, so an assignment made before the exception stays: the
    result is the variables as the pass leaves them, and the record when
    the pass reached its [return]. *)
Definition gemini_attempt (client : Client) (url : string)
           (phone_candidates : list string) (content : string)
           (v : loop_vars) : M (loop_vars * option record) :=
  t0 <- ask perf_counter ;;
  r <- attempt_of (models_generate_content client phone_candidates content) ;;
  match r with
  | Raise _ => ret (v, None)
  | Return response =>
      t1 <- ask perf_counter ;;
      let gemini_duration := Some (PrimFloat.sub t1 t0) in
      let usage :=
        match usage_metadata response with
        | Some um => Some (mkUsage (prompt_token_count um)
                                   (candidates_token_count um)
                                   (total_token_count um))
        | None => usage v
        end in
      let v' := mkVars (attempts v) usage gemini_duration in
      let raw := PyStr.strip (PyStr.or_empty (text response)) in
      match json_loads raw with
      | None => ret (v', None)
      | Some data =>
          match fill_record url data FIELD_NAMES (empty_record url) with
          | Raise _ => ret (v', None)
          | Return rec => ret (v', Some rec)
          end
      end
  end.

(** [while attempts < GEMINI_MAX_ATTEMPTS: attempts += 1; ...] *)
Equations? gemini_loop (client : Client) (url : string)
           (phone_candidates : list string) (content : string)
           (v : loop_vars) (s : state)
  : outcome (loop_vars * option record) * state
  by wf (Z.to_nat (GEMINI_MAX_ATTEMPTS - attempts v)) lt :=
  gemini_loop client url phone_candidates content v s
    with Z_lt_dec (attempts v) GEMINI_MAX_ATTEMPTS := {
    | left _ =>
        let v1 := mkVars (attempts v + 1) (usage v) (gemini_duration v) in
        match gemini_attempt client url phone_candidates content v1 s with
        | (Return (v2, Some rec), s') => (Return (v2, Some rec), s')
        | (Return (v2, None), s') =>
            gemini_loop client url phone_candidates content
                        (mkVars (attempts v1) (usage v2) (gemini_duration v2)) s'
        | (Raise e, s') => (Raise e, s')
        end
    | right _ => (Return (v, None), s) }.
Proof. simpl. lia. Qed.

Definition extract_with_gemini (client : Client) (url page_text raw_html : string)
           (crawl_duration_sec : float) : M (record * json) :=
  t0_total <- ask perf_counter ;;
  let phone_candidates := extract_phone_candidates_from_html raw_html in
  let content := PyStr.slice_to MAX_CONTENT_CHARS page_text in
  out <- gemini_loop client url phone_candidates content (mkVars 0 None None) ;;
  let (v, found) := out in
  t1 <- ask perf_counter ;;
  let total_duration := PrimFloat.sub t1 t0_total in
  match found with
  | Some rec =>
      meta <- make_meta "SUCCESS" (Some crawl_duration_sec) (Some total_duration)
                        (Some GEMINI_MODEL) (attempts v) (usage v)
                        (gemini_duration v) ;;
      ret (rec, meta)
  | None =>
      meta <- make_meta "GEMINI_CALL_FAILED" (Some crawl_duration_sec)
                        (Some total_duration) (Some GEMINI_MODEL) (attempts v)
                        (usage v) (gemini_duration v) ;;
      ret (empty_record url, meta)
  end.

(* ---------------------------------------------------------------- *)
(** *** Per-URL pipeline *)

(** [rec["meta"] = meta] *)
Definition attach_meta (rec : record) (meta : json) : record :=
  Dict.set rec "meta" meta.

Definition process_url (url : string) (client : Client) : M record :=
  r <- attempt_of (fetch_page_text_and_html url) ;;
  match r with
  | Raise _ =>
      meta <- make_meta "CRAWL_FAILED" None None (Some GEMINI_MODEL) 0 None None ;;
      ret (attach_meta (empty_record url) meta)
  | Return (page_text, raw_html, crawl_duration) =>
      out <- extract_with_gemini client url page_text raw_html crawl_duration ;;
      let (rec, meta) := out in
      ret (attach_meta rec meta)
  end.

(* ---------------------------------------------------------------- *)
(** *** Main *)

(** The list comprehension over the lines of [urls.txt]; [lines] is
    [URLS_FILE.read_text().splitlines()]. *)
Definition read_urls (lines : list string) : list string :=
  map PyStr.strip
      (filter (fun line =>
                 PyStr.truthy (PyStr.strip line)
                 && negb (PyStr.startswith "#" line))
              lines).

(** The body of [for url in urls], for a per-URL pipeline [pipeline]:
    [main] runs it with [process_url]. *)
Definition run_one (pipeline : string -> Client -> M record)
           (client : Client) (url : string) : M record :=
  r <- attempt_of (pipeline url client) ;;
  match r with
  | Return rec => ret rec
  | Raise _ =>
      meta <- make_meta "SYSTEM_ERROR" None None (Some GEMINI_MODEL) 0 None None ;;
      ret (attach_meta (empty_record url) meta)
  end.

Fixpoint for_each_url (pipeline : string -> Client -> M record)
         (client : Client) (urls : list string) (results : list record)
  : M (list record) :=
  match urls with
  | [] => ret results
  | url :: rest =>
      rec <- run_one pipeline client url ;;
      for_each_url pipeline client rest (results ++ [rec])
  end.

(** [main], where [urls_file] is the lines of [urls.txt], or [None] when the
    file does not exist. *)
Definition main_with (pipeline : string -> Client -> M record)
           (urls_file : option (list string)) : M unit :=
  match urls_file with
  | None => raise (FileNotFoundError "urls.txt not found")
  | Some lines =>
      let urls := read_urls lines in
      match urls with
      | [] => ret tt
      | _ =>
          client <- configure_gemini_client ;;
          t0_all <- ask perf_counter ;;
          results <- with_crawler (for_each_url pipeline client urls []) ;;
          t1_all <- ask perf_counter ;;
          write_output results
      end
  end.

Definition main (urls_file : option (list string)) : M unit :=
  main_with process_url urls_file.

(* ================================================================== *)
(** ** Vocabulary of the properties *)

Local Open Scope nat_scope.


(** The step of the inner loop: [if val not in candidates: append]. *)
Definition add_candidate (candidates : list string) (val : string)
  : list string :=
  if str_in val candidates then candidates else candidates ++ [val].

Fixpoint distinct (l : list string) : bool :=
  match l with
  | [] => true
  | x :: t => negb (str_in x t) && distinct t
  end.

(** [meta[k]] of the meta object attached to a record. *)
Definition json_get (j : json) (k : string) : option json :=
  match j with
  | JObj d => Dict.get d k
  | _ => None
  end.

(** A record that carries the URL and nothing else: every other declared
    field is null. *)
Definition url_only (url : string) (rec : record) : Prop :=
  Dict.get rec "url" = Some (JStr url)
  /\ forall k, In k FIELD_NAMES -> k <> "url" -> Dict.get rec k = Some JNull.

(** A record that carries the URL and, for every other declared field, the
    value the collaborator returned, or null when it returned none. *)
Definition merged (url : string) (d : Dict.dict json) (rec : record) : Prop :=
  Dict.get rec "url" = Some (JStr url)
  /\ forall k, In k FIELD_NAMES -> k <> "url" ->
               Dict.get rec k
               = Some (match Dict.get d k with Some v => v | None => JNull end).

(** The state after reading the clock for a timestamp. *)
Definition after_timestamp (s : state) : state :=
  mkState (snd (utcnow_isoformat (world s))) (events s).

Definition timestamp_at (s : state) : string :=
  (fst (utcnow_isoformat (world s)) ++ "Z")%string.

Definition after_clock (s : state) : state :=
  mkState (snd (perf_counter (world s))) (events s).

Definition clock_at (s : state) : float := fst (perf_counter (world s)).

Definition CRAWL_FAILED : StatusRow :=
  mkRow "000100" "CRAWL_FAILED"
    "Generic crawl failure (navigation, page load, or unknown browser error).".

Definition GEMINI_CALL_FAILED : StatusRow :=
  mkRow "000200" "GEMINI_CALL_FAILED"
    "Generic Gemini API failure (network, service, or SDK-level error).".

Definition SYSTEM_ERROR : StatusRow :=
  mkRow "000500" "SYSTEM_ERROR"
    "Generic system/runtime error (unexpected exception in the pipeline).".

Definition SUCCESS : StatusRow :=
  mkRow "000000" "SUCCESS"
    "Request completed successfully with a high-confidence extraction result.".

(** The record a successful attempt builds from the object [d] the
    collaborator returned. *)
Definition record_of (url : string) (d : Dict.dict json) : record :=
  map (fun k =>
         (k, if String.eqb k "url" then JStr url
             else match Dict.get d k with Some v => v | None => JNull end))
      FIELD_NAMES.

(** What the collaborator answers to the call of an attempt made in state
    [s]: the call follows one reading of the clock. *)
Definition gemini_answer (client : Client) (phone_candidates : list string)
           (content : string) (s : state) : outcome Response * World :=
  generate_content client GEMINI_MODEL phone_candidates content
                   (world (after_clock s)).

(** The [dict] a response parses to, when it parses to one. *)
Definition parsed_object (response : Response) : option (Dict.dict json) :=
  match json_loads (PyStr.strip (PyStr.or_empty (text response))) with
  | Some (JObj d) => Some d
  | _ => None
  end.

(** An attempt fails when the collaborator raises or its response does not
    decode to a JSON object. *)
Definition attempt_fails (client : Client) (phone_candidates : list string)
           (content : string) (s : state) : Prop :=
  match fst (gemini_answer client phone_candidates content s) with
  | Raise _ => True
  | Return response => parsed_object response = None
  end.

(** The state an attempt made in state [s] leaves: the call is logged, and
    the clock is read once more when the collaborator answered. *)
Definition after_attempt (client : Client) (phone_candidates : list string)
           (content : string) (s : state) : state :=
  let evs := events s ++ [EvGenerate GEMINI_MODEL phone_candidates content] in
  match gemini_answer client phone_candidates content s with
  | (Raise _, w) => mkState w evs
  | (Return _, w) => after_clock (mkState w evs)
  end.

(** All of the next [n] attempts fail, the first made in state [s]. *)
Fixpoint all_attempts_fail (n : nat) (client : Client)
         (phone_candidates : list string) (content : string) (s : state)
  : Prop :=
  match n with
  | O => True
  | S n' =>
      attempt_fails client phone_candidates content s
      /\ all_attempts_fail n' client phone_candidates content
                           (after_attempt client phone_candidates content s)
  end.

(** The state after [n] attempts. *)
Fixpoint after_attempts (n : nat) (client : Client)
         (phone_candidates : list string) (content : string) (s : state)
  : state :=
  match n with
  | O => s
  | S n' =>
      after_attempts n' client phone_candidates content
                     (after_attempt client phone_candidates content s)
  end.

(** The meta object of an extraction that ended with the loop variables
    [v]. *)
Definition extraction_meta (row : StatusRow) (v : loop_vars)
           (crawl_duration total_duration : float) (ts : string) : json :=
  asdict (mkMeta (cd_name row) (cd_std row) (Some GEMINI_MODEL) (attempts v)
                 (usage_get (usage v) prompt_token_count)
                 (usage_get (usage v) candidates_token_count)
                 (usage_get (usage v) total_token_count)
                 (gemini_duration v) (Some crawl_duration)
                 (Some total_duration) (Some ts)).

(** The meta object of a URL that never reached the extraction. *)
Definition failure_meta (row : StatusRow) (ts : string) : json :=
  asdict (mkMeta (cd_name row) (cd_std row) (Some GEMINI_MODEL) 0
                 None None None None None None (Some ts)).

(** What the crawler answers to the call for [url] made in state [s]. *)
Definition crawl_answer (url : string) (s : state)
  : outcome CrawlResult * World :=
  arun (PyStr.strip url) (world (after_clock s)).

(** The fetch stage fails: the URL is blank, the collaborator raises, or it
    signals non-success. *)
Definition fetch_failure (url : string) (s : state) : Prop :=
  PyStr.strip url = ""
  \/ match fst (crawl_answer url s) with
     | Raise _ => True
     | Return result => success result = false
     end.

(** The fallback chain of the content representations. *)
Definition select_page_text (structured cleaned raw : string) : string :=
  match structured, cleaned with
  | EmptyString, EmptyString => raw
  | EmptyString, _ => cleaned
  | _, _ => structured
  end.

Definition after_crawl (url : string) (s : state) : state :=
  mkState (snd (crawl_answer url s)) (events s ++ [EvCrawl (PyStr.strip url)]).

(** The credential: the first of the two variables that is set and not
    empty. *)
Definition api_credential : option string :=
  if opt_truthy (environ "GEMINI_API_KEY") then environ "GEMINI_API_KEY"
  else if opt_truthy (environ "GOOGLE_API_KEY") then environ "GOOGLE_API_KEY"
  else None.

(** The [url] fields of a list of records. *)
Definition urls_of (results : list record) : list (option json) :=
  map (fun rec => Dict.get rec "url") results.

(** A per-URL pipeline that, when it returns, returns a record for the URL
    it was given; it may raise as it likes. *)
Definition keeps_url (pipeline : string -> Client -> M record) : Prop :=
  forall url client s rec s',
    pipeline url client s = (Return rec, s') ->
    Dict.get rec "url" = Some (JStr url).

(** An attempt succeeds with the object [d]: the collaborator answers and
    its response decodes to the JSON object [d]. *)
Definition attempt_succeeds (client : Client) (phone_candidates : list string)
           (content : string) (s : state) (d : Dict.dict json) : Prop :=
  match fst (gemini_answer client phone_candidates content s) with
  | Raise _ => False
  | Return response => parsed_object response = Some d
  end.

(** The collaborator raises at the attempt made in state [s]. *)
Definition attempt_raises (client : Client) (phone_candidates : list string)
           (content : string) (s : state) : Prop :=
  match fst (gemini_answer client phone_candidates content s) with
  | Raise _ => True
  | Return _ => False
  end.

(** The collaborator raises at each of the next [n] attempts. *)
Fixpoint all_attempts_raise (n : nat) (client : Client)
         (phone_candidates : list string) (content : string) (s : state)
  : Prop :=
  match n with
  | O => True
  | S n' =>
      attempt_raises client phone_candidates content s
      /\ all_attempts_raise n' client phone_candidates content
                            (after_attempt client phone_candidates content s)
  end.

(** The URLs crawled, the number of calls of the model and the outputs
    written, as a log of events tells them. *)
Definition crawled (evs : list event) : list string :=
  flat_map (fun e => match e with EvCrawl u => [u] | _ => [] end) evs.

Definition generated (evs : list event) : nat :=
  List.length
    (filter (fun e => match e with EvGenerate _ _ _ => true | _ => false end)
            evs).

Definition written (evs : list event) : list (string * list record) :=
  flat_map (fun e => match e with EvWriteOutput p r => [(p, r)] | _ => [] end)
           evs.

(** The least and the greatest length of a match of a pattern. *)
Fixpoint min_len (p : Re.pattern) : nat :=
  match p with
  | [] => 0
  | Re.Boundary :: rest => min_len rest
  | Re.Rep _ lo _ :: rest => lo + min_len rest
  end.

Fixpoint max_len (p : Re.pattern) : nat :=
  match p with
  | [] => 0
  | Re.Boundary :: rest => max_len rest
  | Re.Rep _ _ hi :: rest => hi + max_len rest
  end.

(** The character classes a pattern names. *)
Fixpoint classes (p : Re.pattern) : list Re.cclass :=
  match p with
  | [] => []
  | Re.Boundary :: rest => classes rest
  | Re.Rep k _ _ :: rest => k :: classes rest
  end.

(** A character a phone candidate may hold: a decimal digit, a dash or a
    blank. *)
Definition phone_char (c : ascii) : bool :=
  PyStr.isdecimal c || Ascii.eqb "-"%char c || PyStr.isspace c.

(** Every character of [s] satisfies [f]. *)
Fixpoint all_chars (f : ascii -> bool) (s : string) : bool :=
  match s with
  | EmptyString => true
  | String c t => f c && all_chars f t
  end.

(** The record the run makes of a URL whose pipeline raised and left the
    state [s1]. *)
Definition system_error_record (url : string) (s1 : state) : record :=
  attach_meta (empty_record url) (failure_meta SYSTEM_ERROR (timestamp_at s1)).

(** The records of a run over [urls] that starts in state [s] and ends in
    state [s']: the record of a URL is the one the pipeline returns for it
    in the state the URLs before it left, and the SYSTEM_ERROR record of the
    URL when the pipeline raises there. *)
Inductive run_of (pipeline : string -> Client -> M record) (client : Client)
  : list string -> state -> list record -> state -> Prop :=
| run_done (s : state) : run_of pipeline client [] s [] s
| run_returned (url : string) (rest : list string) (s s1 s' : state)
               (rec : record) (recs : list record) :
    pipeline url client s = (Return rec, s1) ->
    run_of pipeline client rest s1 recs s' ->
    run_of pipeline client (url :: rest) s (rec :: recs) s'
| run_raised (url : string) (rest : list string) (s s1 s' : state)
             (e : exn) (recs : list record) :
    pipeline url client s = (Raise e, s1) ->
    run_of pipeline client rest (after_timestamp s1) recs s' ->
    run_of pipeline client (url :: rest) s
           (system_error_record url s1 :: recs) s'.

(** The browser session starts and closes without an exception, and the
    output file can be written. *)
Definition crawler_session_ok : Prop :=
  (forall w, fst (crawler_start w) = Return tt)
  /\ (forall w, fst (crawler_close w) = Return tt).

Definition write_ok : Prop :=
  forall results w, fst (write_text OUTPUT_FILE results w) = Return tt.

(** The reads of the environment that configure the client. *)
Definition credential_reads : list event :=
  if opt_truthy (environ "GEMINI_API_KEY") then [EvGetenv "GEMINI_API_KEY"]
  else [EvGetenv "GEMINI_API_KEY"; EvGetenv "GOOGLE_API_KEY"].

(** The states after the session is started, after it is closed and after
    the output is written. *)
Definition after_start (s : state) : state :=
  mkState (snd (crawler_start (world s))) (events s ++ [EvCrawlerStart]).

Definition after_close (s : state) : state :=
  mkState (snd (crawler_close (world s))) (events s ++ [EvCrawlerClose]).

Definition after_write (results : list record) (s : state) : state :=
  mkState (snd (write_text OUTPUT_FILE results (world s)))
          (events s ++ [EvWriteOutput OUTPUT_FILE results]).

(** The state in which the loop over the URLs starts: the credential is
    read, the clock too, and the browser session is started. *)
Definition loop_start (s : state) : state :=
  after_start (after_clock (mkState (world s) (events s ++ credential_reads))).


(* ================================================================== *)
(** ** Properties: strings and the phone patterns *)

Lemma decimal_not_space (c : ascii) :
  PyStr.isdecimal c = true -> PyStr.isspace c = false.
Proof.
  destruct c as [[] [] [] [] [] [] [] []]; vm_compute; congruence.
Qed.

Lemma lstrip_id (c : ascii) (t : string) :
  PyStr.isspace c = false -> PyStr.lstrip (String c t) = String c t.
Proof. intros H. simpl. now rewrite H. Qed.

Lemma rstrip_id (m : string) :
  forall d c, PyStr.last_or d m = Some c -> PyStr.isspace c = false ->
              m <> EmptyString -> PyStr.rstrip m = m.
Proof.
  induction m as [|a t IH]; intros d c Hl Hc Hne; [congruence|].
  simpl in *. destruct t as [|b u].
  - simpl in *. inversion Hl; subst. now rewrite Hc.
  - rewrite (IH (Some a) c Hl Hc) by discriminate. reflexivity.
Qed.

Lemma strip_id (m : string) (a c : ascii) :
  PyStr.head m = Some a -> PyStr.isspace a = false ->
  PyStr.last_or None m = Some c -> PyStr.isspace c = false ->
  PyStr.strip m = m.
Proof.
  intros Hh Ha Hl Hc. destruct m as [|x t]; [discriminate|].
  simpl in Hh. inversion Hh; subst x.
  unfold PyStr.strip. rewrite lstrip_id by assumption.
  eapply rstrip_id; eauto. discriminate.
Qed.

Lemma drop_drop (i j : nat) (s : string) :
  PyStr.drop j (PyStr.drop i s) = PyStr.drop (i + j) s.
Proof.
  revert s; induction i as [|i IH]; intros s; simpl; [reflexivity|].
  destruct s as [|c t]; [now destruct j | apply IH].
Qed.

Lemma last_or_take (n : nat) :
  forall s d c, String.get n s = Some c ->
                PyStr.last_or d (PyStr.take (S n) s) = Some c.
Proof.
  induction n as [|n IH]; intros s d c H; destruct s as [|a t]; simpl in H;
    try discriminate.
  - inversion H; subst. destruct t; reflexivity.
  - change (PyStr.take (S (S n)) (String a t))
      with (String a (PyStr.take (S n) t)).
    cbn [PyStr.last_or]. now apply IH.
Qed.

Lemma get_drop (j m : nat) :
  forall s, String.get m (PyStr.drop j s) = String.get (j + m) s.
Proof.
  induction j as [|j IH]; intros s; simpl; [reflexivity|].
  destruct s as [|a t]; simpl; [now destruct m | apply IH].
Qed.

Lemma first_down_some (f : nat -> option nat) (lo n r : nat) :
  Re.first_down f lo n = Some r -> exists j, lo <= j <= n /\ f j = Some r.
Proof.
  induction n as [|n IH]; simpl.
  - destruct (0 <? lo) eqn:E; [discriminate|]. apply Nat.ltb_ge in E.
    destruct (f 0) eqn:F; [|discriminate]. intros H; inversion H; subst.
    exists 0. auto.
  - destruct (S n <? lo) eqn:E; [discriminate|]. apply Nat.ltb_ge in E.
    destruct (f (S n)) eqn:F.
    + intros H; inversion H; subst. exists (S n). auto.
    + intros H. destruct (IH H) as (j & Hj & Fj). exists j. split; [lia|auto].
Qed.

Lemma run_get (k : Re.cclass) (hi : nat) :
  forall s i, i < Re.run k hi s ->
              exists c, String.get i s = Some c /\ Re.cls_match k c = true.
Proof.
  induction hi as [|hi IH]; intros s i H; destruct s as [|a t]; simpl in H;
    try lia.
  destruct (Re.cls_match k a) eqn:E; [|lia].
  destruct i as [|i]; simpl; [eauto|]. apply IH. lia.
Qed.

Lemma match_rep_inv (k : Re.cclass) (lo hi : nat) (rest : Re.pattern)
      (prev : option ascii) (s : string) (n : nat) :
  Re.match_here (Re.Rep k lo hi :: rest) prev s = Some n ->
  exists j r, lo <= j <= Re.run k hi s /\ n = j + r /\
    Re.match_here rest (PyStr.last_or prev (PyStr.take j s)) (PyStr.drop j s)
    = Some r.
Proof.
  simpl. intros H. apply first_down_some in H. destruct H as (j & Hj & H).
  destruct (Re.match_here rest _ _) as [r|] eqn:E; [|discriminate].
  inversion H; subst. eauto.
Qed.

(** A match of a pattern that starts with a boundary and a literal starts
    with that literal. *)
Lemma match_first_char (c : ascii) (rest : Re.pattern) (prev : option ascii)
      (s : string) (n : nat) :
  Re.match_here (Re.Boundary :: Re.one (Re.Lit c) :: rest) prev s = Some n ->
  PyStr.head (PyStr.take n s) = Some c.
Proof.
  cbn [Re.match_here]. destruct (Re.at_boundary prev s); [|discriminate].
  intros H. apply match_rep_inv in H. destruct H as (j & r & Hj & -> & _).
  destruct (run_get (Re.Lit c) 1 s 0 ltac:(lia)) as (a & Ha & Hm).
  destruct s as [|b t]; [discriminate|]. simpl in Ha, Hm. inversion Ha; subst b.
  apply Ascii.eqb_eq in Hm. subst a.
  destruct j as [|j]; [lia|reflexivity].
Qed.

(** A match of a pattern that ends with a repetition of at least one
    character and a boundary ends with a character of that class. *)
Lemma match_last_char (k : Re.cclass) (lo hi : nat) (pre : Re.pattern) :
  forall prev s n,
    Re.match_here (pre ++ [Re.Rep k (S lo) hi; Re.Boundary]) prev s = Some n ->
    exists m c, n = S m /\ String.get m s = Some c /\ Re.cls_match k c = true.
Proof.
  induction pre as [|it pre IH]; intros prev s n H.
  - cbn [app] in H. apply match_rep_inv in H.
    destruct H as (j & r & Hj & -> & H). cbn [Re.match_here] in H.
    destruct (Re.at_boundary _ _); [|discriminate]. inversion H; subst r.
    destruct j as [|j]; [lia|].
    destruct (run_get k hi s j ltac:(lia)) as (c & Hc & Hm).
    exists j, c. repeat split; auto.
  - cbn [app] in H. destruct it as [|k' lo' hi'].
    + cbn [Re.match_here] in H. destruct (Re.at_boundary prev s); [|discriminate].
      eapply IH; eauto.
    + apply match_rep_inv in H. destruct H as (j & r & Hj & -> & H).
      apply IH in H. destruct H as (m & c & -> & Hg & Hm).
      exists (j + m), c. rewrite get_drop in Hg. repeat split; auto.
Qed.

(** Every span of [scan] is a match of the pattern at its start. *)
Lemma scan_in (p : Re.pattern) (s : string) :
  forall prev pos skip i n,
    In (i, n) (Re.scan p prev s pos skip) ->
    pos <= i /\
    exists prev', Re.match_here p prev' (PyStr.drop (i - pos) s) = Some n.
Proof.
  induction s as [|a t IH]; intros prev pos skip i n H.
  - destruct skip; simpl in H; [|contradiction].
    rewrite app_nil_r in H. destruct (Re.match_here p prev "") eqn:E;
      simpl in H; [|contradiction].
    destruct H as [H|[]]. inversion H; subst. rewrite Nat.sub_diag.
    split; [lia|]. exists prev. exact E.
  - destruct skip as [|k].
    + cbn [Re.scan] in H. apply in_app_or in H. destruct H as [H|H].
      * destruct (Re.match_here p prev (String a t)) eqn:E; simpl in H;
          [|contradiction].
        destruct H as [H|[]]. inversion H; subst. rewrite Nat.sub_diag.
        split; [lia|]. exists prev. exact E.
      * apply IH in H. destruct H as (Hle & prev' & Hm). split; [lia|].
        exists prev'. replace (i - pos) with (S (i - S pos)) by lia. exact Hm.
    + cbn [Re.scan] in H. apply IH in H. destruct H as (Hle & prev' & Hm).
      split; [lia|]. exists prev'.
      replace (i - pos) with (S (i - S pos)) by lia. exact Hm.
Qed.



(** The shape the four phone patterns share: a boundary and a literal that
    is no space first, digits and a boundary last. *)
Lemma phone_pattern_shape (p : Re.pattern) :
  In p phone_patterns ->
  exists c rest pre lo hi,
    p = Re.Boundary :: Re.one (Re.Lit c) :: rest /\
    PyStr.isspace c = false /\
    p = pre ++ [Re.Rep Re.Digit (S lo) hi; Re.Boundary].
Proof.
  intros H. unfold phone_patterns in H. cbn [In] in H.
  destruct H as [H|[H|[H|[H|[]]]]]; subst p;
    lazymatch goal with
    | |- exists c rest pre lo hi, ?q = _ /\ _ /\ _ =>
        eexists; eexists; exists (removelast (removelast q)); eexists; eexists;
        (split; [reflexivity|split; [|reflexivity]]); reflexivity
    end.
Qed.

(** [strip] changes no match of a phone pattern. *)
Lemma phone_match_strip (p : Re.pattern) (prev : option ascii) (s : string)
      (n : nat) :
  In p phone_patterns -> Re.match_here p prev s = Some n ->
  PyStr.strip (PyStr.take n s) = PyStr.take n s.
Proof.
  intros Hp Hm.
  destruct (phone_pattern_shape p Hp) as (c & rest & pre & lo & hi & E1 & Hc & E2).
  assert (Hh : PyStr.head (PyStr.take n s) = Some c).
  { rewrite E1 in Hm. eapply match_first_char; eauto. }
  rewrite E2 in Hm. apply match_last_char in Hm.
  destruct Hm as (m & d & -> & Hg & Hd).
  eapply strip_id; [exact Hh | exact Hc | apply last_or_take; exact Hg |].
  apply decimal_not_space. exact Hd.
Qed.

Lemma finditer_strip (p : Re.pattern) (s : string) :
  In p phone_patterns ->
  map PyStr.strip (Re.finditer p s) = Re.finditer p s.
Proof.
  intros Hp. unfold Re.finditer, Re.spans. rewrite map_map.
  apply map_ext_in. intros [i n] Hin. cbn [fst snd].
  apply scan_in in Hin. destruct Hin as (_ & prev' & Hm).
  rewrite Nat.sub_0_r in Hm. unfold PyStr.slice.
  eapply phone_match_strip; eauto.
Qed.

(** *** First occurrence wins *)

Lemma str_in_app (x : string) (l1 l2 : list string) :
  str_in x (l1 ++ l2) = str_in x l1 || str_in x l2.
Proof. unfold str_in. apply existsb_app. Qed.

Lemma filter_filter {A} (f g : A -> bool) (l : list A) :
  filter f (filter g l) = filter (fun x => g x && f x) l.
Proof.
  induction l as [|a l IH]; simpl; [reflexivity|].
  destruct (g a); simpl; [destruct (f a)|]; now rewrite IH.
Qed.

Lemma fold_add_candidate (l : list string) :
  forall acc,
    fold_left add_candidate l acc
    = acc ++ filter (fun y => negb (str_in y acc)) (first_seen l).
Proof.
  induction l as [|x t IH]; intros acc; simpl.
  - now rewrite app_nil_r.
  - rewrite IH. unfold add_candidate. destruct (str_in x acc) eqn:E; simpl.
    + f_equal. rewrite filter_filter. apply filter_ext_in. intros y _.
      destruct (String.eqb x y) eqn:Exy; simpl; [|reflexivity].
      apply String.eqb_eq in Exy. subst y. now rewrite E.
    + rewrite <- app_assoc. simpl. f_equal. f_equal.
      rewrite filter_filter. apply filter_ext. intros y.
      rewrite str_in_app. simpl. rewrite orb_false_r, negb_orb.
      rewrite (String.eqb_sym y x). apply andb_comm.
Qed.

Lemma filter_true {A} (l : list A) : filter (fun _ => true) l = l.
Proof. induction l; simpl; congruence. Qed.

Lemma fold_add_candidate_nil (l : list string) :
  fold_left add_candidate l [] = first_seen l.
Proof. rewrite fold_add_candidate. simpl. apply filter_true. Qed.

Lemma first_seen_in (l : list string) (x : string) :
  In x (first_seen l) <-> In x l.
Proof.
  induction l as [|a t IH]; simpl; [split; intros []|].
  rewrite filter_In, IH. split.
  - intros [H|[H _]]; auto.
  - intros [H|H]; auto. destruct (String.eqb a x) eqn:E.
    + apply String.eqb_eq in E. auto.
    + right. auto.
Qed.


Lemma fold_matches (ms : list string) :
  forall acc,
    fold_left
      (fun candidates m =>
         let val := PyStr.strip m in
         if str_in val candidates then candidates else candidates ++ [val])
      ms acc
    = fold_left add_candidate (map PyStr.strip ms) acc.
Proof.
  induction ms as [|m ms IH]; intros acc; [reflexivity|].
  cbn [fold_left map]. rewrite IH. reflexivity.
Qed.

Lemma fold_patterns (raw_html : string) (ps : list Re.pattern) :
  forall acc,
    fold_left
      (fun candidates pat =>
         fold_left
           (fun candidates m =>
              let val := PyStr.strip m in
              if str_in val candidates then candidates
              else candidates ++ [val])
           (Re.finditer pat raw_html) candidates)
      ps acc
    = fold_left add_candidate
        (List.concat (map (fun p => map PyStr.strip (Re.finditer p raw_html)) ps))
        acc.
Proof.
  induction ps as [|p ps IH]; intros acc; [reflexivity|].
  cbn [fold_left map List.concat]. rewrite fold_left_app, IH, fold_matches.
  reflexivity.
Qed.

(** The candidates as the two nested loops build them: one pass of
    [add_candidate] over the stripped matches of the patterns, in order. *)
Lemma extract_phone_candidates_unfold (raw_html : string) :
  extract_phone_candidates_from_html raw_html
  = fold_left add_candidate
      (List.concat (map (fun p => map PyStr.strip (Re.finditer p raw_html))
                        phone_patterns)) [].
Proof. apply fold_patterns. Qed.


Example phone_call_now :
  extract_phone_candidates_from_html "Call 017-787 0260 now" = ["017-787 0260"].
Proof. reflexivity. Qed.

Example phone_wasap :
  extract_phone_candidates_from_html "wasap.my/60123456789" = ["60123456789"].
Proof. reflexivity. Qed.

Example phone_landline :
  extract_phone_candidates_from_html "03-12345678" = ["03-12345678"].
Proof. reflexivity. Qed.

(** Matches of the second pattern come after all matches of the first,
    wherever they stand in the text, and a repeat is dropped. *)
Example phone_order_by_pattern :
  extract_phone_candidates_from_html
    "01123456789 then 017-787 0260 and again 017-787 0260"
  = ["017-787 0260"; "01123456789"].
Proof. reflexivity. Qed.

(* ================================================================== *)
(** ** Properties: the status registry *)

(** The names of the catalog are pairwise distinct, so indexing by name
    keeps every row. *)
Lemma STATUS_BY_NAME_rows :
  STATUS_BY_NAME = map (fun r => (cd_name r, r)) STATUS_DEFINITIONS.
Proof. reflexivity. Qed.

Lemma get_rows (rows : list StatusRow) (name : string) :
  Dict.get (map (fun r => (cd_name r, r)) rows) name
  = find (fun r => String.eqb (cd_name r) name) rows.
Proof.
  induction rows as [|r rows IH]; simpl; [reflexivity|].
  now destruct (String.eqb (cd_name r) name).
Qed.

Lemma find_unique (rows : list StatusRow) (name : string) (r : StatusRow) :
  NoDup (map cd_name rows) -> In r rows -> cd_name r = name ->
  find (fun r => String.eqb (cd_name r) name) rows = Some r.
Proof.
  induction rows as [|a rows IH]; simpl; intros Hnd Hin Hn; [contradiction|].
  inversion Hnd as [|? ? Hnot Hnd']; subst.
  destruct Hin as [->|Hin].
  - now rewrite String.eqb_refl.
  - destruct (String.eqb (cd_name a) (cd_name r)) eqn:E.
    + apply String.eqb_eq in E. exfalso. apply Hnot. rewrite E.
      now apply in_map.
    + now apply IH.
Qed.

Lemma distinct_NoDup (l : list string) : distinct l = true -> NoDup l.
Proof.
  induction l as [|x t IH]; simpl; intros H; constructor;
    apply andb_prop in H; destruct H as [Hx Ht]; [|auto].
  intros Hin. apply negb_true_iff in Hx. unfold str_in in Hx.
  assert (existsb (String.eqb x) t = true); [|congruence].
  apply existsb_exists. exists x. split; [exact Hin|apply String.eqb_refl].
Qed.

Lemma status_names_NoDup : NoDup (map cd_name STATUS_DEFINITIONS).
Proof. apply distinct_NoDup. reflexivity. Qed.

Lemma status_codes_NoDup : NoDup (map cd_std STATUS_DEFINITIONS).
Proof. apply distinct_NoDup. reflexivity. Qed.

Lemma unexpected_error_registered : In UNEXPECTED_ERROR STATUS_DEFINITIONS.
Proof.
  unfold STATUS_DEFINITIONS; repeat first [left; reflexivity | right].
Qed.

Lemma status_row_find (name : string) :
  _status_row name
  = Return (match find (fun r => String.eqb (cd_name r) name)
                       STATUS_DEFINITIONS with
            | Some row => row
            | None => UNEXPECTED_ERROR
            end).
Proof.
  unfold _status_row.
  replace (subscript STATUS_BY_NAME "UNEXPECTED_ERROR")
    with (Return UNEXPECTED_ERROR) by reflexivity.
  now rewrite STATUS_BY_NAME_rows, get_rows.
Qed.

Lemma status_row_registered (r : StatusRow) :
  In r STATUS_DEFINITIONS -> _status_row (cd_name r) = Return r.
Proof.
  intros Hr. rewrite status_row_find.
  now rewrite (find_unique _ _ r status_names_NoDup Hr eq_refl).
Qed.

Lemma status_row_unknown (name : string) :
  (forall r, In r STATUS_DEFINITIONS -> cd_name r <> name) ->
  _status_row name = Return UNEXPECTED_ERROR.
Proof.
  intros Hno. rewrite status_row_find.
  destruct (find _ STATUS_DEFINITIONS) as [row|] eqn:F; [|reflexivity].
  apply find_some in F. destruct F as [Hin Hn]. apply String.eqb_eq in Hn.
  exfalso. exact (Hno row Hin Hn).
Qed.

Lemma status_row_in (name : string) :
  exists row, _status_row name = Return row /\ In row STATUS_DEFINITIONS.
Proof.
  rewrite status_row_find.
  destruct (find _ STATUS_DEFINITIONS) as [row|] eqn:F.
  - apply find_some in F. exists row. split; [reflexivity|apply F].
  - exists UNEXPECTED_ERROR. split;
      [reflexivity|apply unexpected_error_registered].
Qed.

(** C6. For every string the lookup returns a row of the catalog and never
    raises: the one row registered under that name when there is one, with
    its code and description, and the UNEXPECTED_ERROR row for every other
    name. *)
Theorem status_lookup_total (name : string) :
  exists row,
    _status_row name = Return row
    /\ In row STATUS_DEFINITIONS
    /\ (forall r, In r STATUS_DEFINITIONS -> cd_name r = name -> row = r)
    /\ ((forall r, In r STATUS_DEFINITIONS -> cd_name r <> name) ->
        row = UNEXPECTED_ERROR).
Proof.
  destruct (status_row_in name) as (row & E & Hin). exists row.
  split; [exact E|]. split; [exact Hin|]. split.
  - intros r Hr Hn. subst name. rewrite (status_row_registered r Hr) in E.
    now inversion E.
  - intros Hno. rewrite (status_row_unknown name Hno) in E. now inversion E.
Qed.

(* ================================================================== *)
(** ** Properties: the record pipeline *)

Lemma ask_perf_counter (s : state) :
  ask perf_counter s = (Return (clock_at s), after_clock s).
Proof.
  unfold ask, clock_at, after_clock. now destruct (perf_counter (world s)).
Qed.

Lemma make_meta_registered (row : StatusRow)
      (cd td : option float) (gm : option string) (att : Z)
      (us : option Usage) (gd : option float) (s : state) :
  In row STATUS_DEFINITIONS ->
  make_meta (cd_name row) cd td gm att us gd s
  = (Return (asdict (mkMeta (cd_name row) (cd_std row) gm att
                            (usage_get us prompt_token_count)
                            (usage_get us candidates_token_count)
                            (usage_get us total_token_count)
                            gd cd td (Some (timestamp_at s)))),
     after_timestamp s).
Proof.
  intros Hin. unfold make_meta, bind, of_outcome, ask, ret.
  rewrite (status_row_registered row Hin).
  unfold timestamp_at, after_timestamp.
  now destruct (utcnow_isoformat (world s)).
Qed.

Lemma registered_rows :
  In SUCCESS STATUS_DEFINITIONS /\ In CRAWL_FAILED STATUS_DEFINITIONS
  /\ In GEMINI_CALL_FAILED STATUS_DEFINITIONS
  /\ In SYSTEM_ERROR STATUS_DEFINITIONS.
Proof.
  repeat split; unfold STATUS_DEFINITIONS;
    repeat first [left; reflexivity | right].
Qed.

(** *** Records *)

Lemma empty_record_eq (url : string) :
  empty_record url
  = map (fun k => (k, if String.eqb k "url" then JStr url else JNull))
        FIELD_NAMES.
Proof. reflexivity. Qed.

Lemma empty_record_keys (url : string) :
  Dict.keys (empty_record url) = FIELD_NAMES.
Proof. reflexivity. Qed.

Lemma empty_record_url_only (url : string) : url_only url (empty_record url).
Proof.
  split; [reflexivity|]. intros k Hk Hne. simpl in Hk.
  repeat (destruct Hk as [<-|Hk]; [try congruence; reflexivity|]).
  contradiction.
Qed.

Lemma get_set_other {V} (d : Dict.dict V) (k k' : string) (v : V) :
  k <> k' -> Dict.get (Dict.set d k v) k' = Dict.get d k'.
Proof.
  intros Hne. induction d as [|[a b] d IH]; simpl.
  - destruct (String.eqb k k') eqn:E; [apply String.eqb_eq in E; congruence|].
    reflexivity.
  - destruct (String.eqb a k) eqn:E; simpl.
    + apply String.eqb_eq in E. subst a.
      destruct (String.eqb k k') eqn:E'; [apply String.eqb_eq in E'; congruence|].
      reflexivity.
    + now rewrite IH.
Qed.

Lemma get_set_same {V} (d : Dict.dict V) (k : string) (v : V) :
  Dict.get (Dict.set d k v) k = Some v.
Proof.
  induction d as [|[a b] d IH]; simpl.
  - now rewrite String.eqb_refl.
  - destruct (String.eqb a k) eqn:E; simpl; rewrite E; auto.
Qed.

Lemma keys_set_new {V} (d : Dict.dict V) (k : string) (v : V) :
  ~ In k (Dict.keys d) -> Dict.keys (Dict.set d k v) = Dict.keys d ++ [k].
Proof.
  induction d as [|[a b] d IH]; simpl; intros Hn; [reflexivity|].
  destruct (String.eqb a k) eqn:E.
  - apply String.eqb_eq in E. exfalso. apply Hn. now left.
  - simpl. f_equal. apply IH. intros H. apply Hn. now right.
Qed.

Lemma keys_set_old {V} (d : Dict.dict V) (k : string) (v : V) :
  In k (Dict.keys d) -> Dict.keys (Dict.set d k v) = Dict.keys d.
Proof.
  induction d as [|[a b] d IH]; simpl; intros Hn; [contradiction|].
  destruct (String.eqb a k) eqn:E; [reflexivity|].
  simpl. f_equal. apply IH. destruct Hn as [->|]; [|assumption].
  now rewrite String.eqb_refl in E.
Qed.

Lemma meta_not_field : ~ In "meta" FIELD_NAMES.
Proof. simpl. intros H. repeat (destruct H as [H|H]; [discriminate|]). exact H. Qed.

Lemma attach_meta_keys (rec : record) (meta : json) :
  Dict.keys rec = FIELD_NAMES ->
  Dict.keys (attach_meta rec meta) = FIELD_NAMES ++ ["meta"].
Proof.
  intros H. unfold attach_meta. rewrite keys_set_new; rewrite H;
    [reflexivity|apply meta_not_field].
Qed.

Lemma attach_meta_get (rec : record) (meta : json) (k : string) :
  In k FIELD_NAMES -> Dict.get (attach_meta rec meta) k = Dict.get rec k.
Proof.
  intros Hk. apply get_set_other. intros <-. now apply meta_not_field.
Qed.

Lemma attach_meta_meta (rec : record) (meta : json) :
  Dict.get (attach_meta rec meta) "meta" = Some meta.
Proof. apply get_set_same. Qed.

Lemma attach_meta_url_only (url : string) (rec : record) (meta : json) :
  url_only url rec -> url_only url (attach_meta rec meta).
Proof.
  intros [Hu Hn]. split.
  - rewrite attach_meta_get; [exact Hu|simpl; auto].
  - intros k Hk Hne. rewrite attach_meta_get by assumption. auto.
Qed.

Lemma attach_meta_merged (url : string) (d : Dict.dict json) (rec : record)
      (meta : json) :
  merged url d rec -> merged url d (attach_meta rec meta).
Proof.
  intros [Hu Hn]. split.
  - rewrite attach_meta_get; [exact Hu|simpl; auto].
  - intros k Hk Hne. rewrite attach_meta_get by assumption. auto.
Qed.

Lemma fill_record_object (url : string) (d : Dict.dict json) :
  fill_record url (JObj d) FIELD_NAMES (empty_record url)
  = Return (record_of url d).
Proof. reflexivity. Qed.

Lemma fill_record_not_object (url : string) (data : json) :
  (forall d, data <> JObj d) ->
  exists e, fill_record url data FIELD_NAMES (empty_record url) = Raise e.
Proof.
  intros H. destruct data; try (eexists; reflexivity).
  exfalso. eapply H. reflexivity.
Qed.

Lemma record_of_keys (url : string) (d : Dict.dict json) :
  Dict.keys (record_of url d) = FIELD_NAMES.
Proof. reflexivity. Qed.

Lemma record_of_merged (url : string) (d : Dict.dict json) :
  merged url d (record_of url d).
Proof.
  split; [reflexivity|]. intros k Hk Hne. simpl in Hk.
  repeat (destruct Hk as [<-|Hk]; [try congruence; reflexivity|]).
  contradiction.
Qed.

(** *** One attempt *)

Lemma after_attempt_events (client : Client) (cands : list string)
      (content : string) (s : state) :
  events (after_attempt client cands content s)
  = events s ++ [EvGenerate GEMINI_MODEL cands content].
Proof.
  unfold after_attempt.
  now destruct (gemini_answer client cands content s) as [[?|?] ?].
Qed.

Lemma gemini_attempt_spec (client : Client) (url : string)
      (cands : list string) (content : string) (v : loop_vars) (s : state) :
  exists v' found,
    gemini_attempt client url cands content v s
    = (Return (v', found), after_attempt client cands content s)
    /\ attempts v' = attempts v
    /\ (attempt_fails client cands content s <-> found = None)
    /\ (forall rec, found = Some rec -> exists d, rec = record_of url d).
Proof.
  unfold gemini_attempt, attempt_fails, after_attempt, gemini_answer,
    parsed_object.
  unfold bind at 1. rewrite ask_perf_counter.
  unfold bind at 1, attempt_of, models_generate_content, bind at 1, emit, call.
  cbn [world events].
  destruct (generate_content client GEMINI_MODEL cands content
                             (world (after_clock s))) as [[response|e] w].
  - cbn [fst]. unfold bind at 1. rewrite ask_perf_counter.
    destruct (json_loads _) as [data|].
    + destruct data;
        try (cbn; do 2 eexists; repeat split; eauto; try discriminate; fail).
      rewrite fill_record_object. cbn.
      do 2 eexists; repeat split; eauto; try discriminate.
      intros rec H; inversion H; eauto.
    + cbn. do 2 eexists; repeat split; eauto; discriminate.
  - cbn. do 2 eexists; repeat split; eauto; discriminate.
Qed.

(** *** The retry loop *)

Lemma gemini_loop_done (client : Client) (url : string) (cands : list string)
      (content : string) (v : loop_vars) (s : state) :
  (GEMINI_MAX_ATTEMPTS <= attempts v)%Z ->
  gemini_loop client url cands content v s = (Return (v, None), s).
Proof.
  intros H. rewrite gemini_loop_equation_1.
  destruct (Z_lt_dec (attempts v) GEMINI_MAX_ATTEMPTS); [lia|reflexivity].
Qed.

Lemma gemini_loop_step (client : Client) (url : string) (cands : list string)
      (content : string) (v : loop_vars) (s : state) :
  (attempts v < GEMINI_MAX_ATTEMPTS)%Z ->
  gemini_loop client url cands content v s
  = let v1 := mkVars (attempts v + 1) (usage v) (gemini_duration v) in
    match gemini_attempt client url cands content v1 s with
    | (Return (v2, Some rec), s') => (Return (v2, Some rec), s')
    | (Return (v2, None), s') =>
        gemini_loop client url cands content
                    (mkVars (attempts v1) (usage v2) (gemini_duration v2)) s'
    | (Raise e, s') => (Raise e, s')
    end.
Proof.
  intros H. rewrite gemini_loop_equation_1.
  destruct (Z_lt_dec (attempts v) GEMINI_MAX_ATTEMPTS); [reflexivity|lia].
Qed.

(** The loop always ends, after at most the attempts that remain, with the
    record of an attempt that succeeded or with none. *)
Lemma gemini_loop_returns (client : Client) (url : string)
      (cands : list string) (content : string) (n : nat) :
  forall v s,
    Z.to_nat (GEMINI_MAX_ATTEMPTS - attempts v) = n ->
    exists v' found s',
      gemini_loop client url cands content v s = (Return (v', found), s')
      /\ (attempts v <= attempts v')%Z
      /\ (forall rec, found = Some rec ->
                      (exists d, rec = record_of url d)
                      /\ (attempts v < attempts v' <= GEMINI_MAX_ATTEMPTS)%Z).
Proof.
  induction n as [|n IH]; intros v s Hn.
  - rewrite gemini_loop_done by lia.
    do 3 eexists. split; [reflexivity|split; [lia|discriminate]].
  - rewrite gemini_loop_step by lia. cbn zeta.
    destruct (gemini_attempt_spec client url cands content
                (mkVars (attempts v + 1) (usage v) (gemini_duration v)) s)
      as (v2 & found & E & Hatt & _ & Hrec).
    rewrite E. cbn [attempts] in *. destruct found as [rec|].
    + do 3 eexists. split; [reflexivity|split; [lia|]].
      intros rec' H; inversion H; subst. split; [now apply Hrec|lia].
    + destruct (IH (mkVars (attempts v + 1) (usage v2) (gemini_duration v2))
                   (after_attempt client cands content s))
        as (v' & found & s' & E' & Hle & Hf); [cbn [attempts]; lia|].
      rewrite E'. cbn [attempts] in *.
      do 3 eexists. split; [reflexivity|split; [lia|]].
      intros rec H. apply Hf in H. destruct H as [Hd Hb]. split; [exact Hd|lia].
Qed.

(** When every attempt that remains fails, the loop ends without a record,
    having made exactly those attempts. *)
Lemma gemini_loop_exhausted (client : Client) (url : string)
      (cands : list string) (content : string) (n : nat) :
  forall v s,
    Z.to_nat (GEMINI_MAX_ATTEMPTS - attempts v) = n ->
    all_attempts_fail n client cands content s ->
    exists v',
      gemini_loop client url cands content v s
      = (Return (v', None), after_attempts n client cands content s)
      /\ attempts v' = Z.max (attempts v) GEMINI_MAX_ATTEMPTS.
Proof.
  induction n as [|n IH]; intros v s Hn Hall.
  - rewrite gemini_loop_done by lia. eexists. split; [reflexivity|lia].
  - rewrite gemini_loop_step by lia. cbn zeta. destruct Hall as [Hfail Hall].
    destruct (gemini_attempt_spec client url cands content
                (mkVars (attempts v + 1) (usage v) (gemini_duration v)) s)
      as (v2 & found & E & Hatt & Hiff & _).
    rewrite E. apply Hiff in Hfail. subst found.
    destruct (IH (mkVars (attempts v + 1) (usage v2) (gemini_duration v2))
                 (after_attempt client cands content s))
      as (v' & E' & Hv'); [cbn [attempts]; lia|exact Hall|].
    cbn [attempts] in *. rewrite E'. eexists. split; [reflexivity|lia].
Qed.

(** *** Extraction *)

Lemma extract_with_gemini_eq (client : Client) (url page_text raw_html : string)
      (crawl_duration : float) (s s1 : state) (v : loop_vars)
      (found : option record) :
  gemini_loop client url (extract_phone_candidates_from_html raw_html)
              (PyStr.slice_to MAX_CONTENT_CHARS page_text)
              (mkVars 0 None None) (after_clock s)
  = (Return (v, found), s1) ->
  extract_with_gemini client url page_text raw_html crawl_duration s
  = (Return
       (match found with Some rec => rec | None => empty_record url end,
        extraction_meta
          (match found with Some _ => SUCCESS | None => GEMINI_CALL_FAILED end)
          v crawl_duration (PrimFloat.sub (clock_at s1) (clock_at s))
          (timestamp_at (after_clock s1))),
     after_timestamp (after_clock s1)).
Proof.
  intros E. unfold extract_with_gemini.
  unfold bind at 1. rewrite ask_perf_counter.
  unfold bind at 1. rewrite E.
  unfold bind at 1. rewrite ask_perf_counter.
  destruct registered_rows as (Hs & _ & Hg & _).
  destruct found as [rec|]; unfold bind at 1.
  - rewrite (make_meta_registered SUCCESS) by exact Hs. reflexivity.
  - rewrite (make_meta_registered GEMINI_CALL_FAILED) by exact Hg. reflexivity.
Qed.

(** The extraction always returns a record with the declared fields: the
    URL alone, or the URL and what the collaborator returned. *)
Lemma extract_with_gemini_returns (client : Client)
      (url page_text raw_html : string) (crawl_duration : float) (s : state) :
  exists rec meta s',
    extract_with_gemini client url page_text raw_html crawl_duration s
    = (Return (rec, meta), s')
    /\ Dict.keys rec = FIELD_NAMES
    /\ (url_only url rec \/ exists d, merged url d rec).
Proof.
  destruct (gemini_loop_returns client url
              (extract_phone_candidates_from_html raw_html)
              (PyStr.slice_to MAX_CONTENT_CHARS page_text)
              (Z.to_nat (GEMINI_MAX_ATTEMPTS - 0))
              (mkVars 0 None None) (after_clock s) eq_refl)
    as (v & found & s1 & E & _ & Hf).
  rewrite (extract_with_gemini_eq _ _ _ _ _ _ _ _ _ E).
  do 3 eexists. split; [reflexivity|]. destruct found as [rec|].
  - destruct (Hf rec eq_refl) as [[d ->] _]. split.
    + apply record_of_keys.
    + right. exists d. apply record_of_merged.
  - split; [apply empty_record_keys|left; apply empty_record_url_only].
Qed.

(** *** Fetch *)

Lemma truthy_false (x : string) : PyStr.truthy x = false <-> x = "".
Proof. destruct x; simpl; split; congruence. Qed.

Lemma fetch_blank (url : string) (s : state) :
  PyStr.strip url = "" ->
  fetch_page_text_and_html url s = (Raise (ValueError "Empty URL"), s).
Proof.
  intros H. unfold fetch_page_text_and_html. now rewrite H.
Qed.

Lemma fetch_crawled (url : string) (s : state) :
  PyStr.strip url <> "" ->
  fetch_page_text_and_html url s
  = match fst (crawl_answer url s) with
    | Raise e => (Raise e, after_crawl url s)
    | Return result =>
        if success result then
          (Return (select_page_text (raw_md_of result)
                                    (PyStr.or_empty (cleaned_html result))
                                    (PyStr.or_empty (html result)),
                   PyStr.or_empty (html result),
                   PrimFloat.sub (clock_at (after_crawl url s)) (clock_at s)),
           after_clock (after_crawl url s))
        else (Raise (RuntimeError "Crawl failed"),
              after_clock (after_crawl url s))
    end.
Proof.
  intros H. unfold fetch_page_text_and_html.
  destruct (PyStr.truthy (PyStr.strip url)) eqn:T;
    [|apply truthy_false in T; contradiction].
  cbn [negb]. unfold bind at 1. rewrite ask_perf_counter.
  unfold bind at 1, crawler_arun, bind at 1, emit, call, after_crawl,
    crawl_answer.
  cbn [world events].
  destruct (arun (PyStr.strip url) (world (after_clock s))) as [[result|e] w];
    cbn [fst snd]; [|reflexivity].
  unfold bind at 1. rewrite ask_perf_counter.
  destruct (success result); [|reflexivity]. cbn [negb]. unfold ret.
  now destruct (raw_md_of result), (PyStr.or_empty (cleaned_html result)).
Qed.

Lemma fetch_failure_raises (url : string) (s : state) :
  fetch_failure url s <->
  exists e s', fetch_page_text_and_html url s = (Raise e, s').
Proof.
  unfold fetch_failure. split.
  - intros [H|H].
    + rewrite fetch_blank by assumption. eauto.
    + destruct (string_dec (PyStr.strip url) "") as [Hb|Hb];
        [rewrite fetch_blank by assumption; eauto|].
      rewrite fetch_crawled by assumption.
      destruct (fst (crawl_answer url s)) as [result|e]; [|eauto].
      rewrite H. eauto.
  - intros (e & s' & H).
    destruct (string_dec (PyStr.strip url) "") as [Hb|Hb]; [auto|right].
    rewrite fetch_crawled in H by assumption.
    destruct (fst (crawl_answer url s)) as [result|e']; [|exact I].
    destruct (success result); [discriminate|reflexivity].
Qed.

(** *** The per-URL pipeline *)

Lemma process_url_fetched (url : string) (client : Client) (s s1 : state)
      (page_text raw_html : string) (crawl_duration : float) :
  fetch_page_text_and_html url s
  = (Return (page_text, raw_html, crawl_duration), s1) ->
  process_url url client s
  = bind (extract_with_gemini client url page_text raw_html crawl_duration)
         (fun out => let (rec, meta) := out in ret (attach_meta rec meta)) s1.
Proof.
  intros E. unfold process_url. unfold bind at 1, attempt_of. now rewrite E.
Qed.

Lemma process_url_fetch_failed (url : string) (client : Client)
      (s s1 : state) (e : exn) :
  fetch_page_text_and_html url s = (Raise e, s1) ->
  process_url url client s
  = (Return (attach_meta (empty_record url)
                         (failure_meta CRAWL_FAILED (timestamp_at s1))),
     after_timestamp s1).
Proof.
  intros E. unfold process_url. unfold bind at 1, attempt_of. rewrite E.
  destruct registered_rows as (_ & Hc & _).
  unfold bind at 1. rewrite (make_meta_registered CRAWL_FAILED) by exact Hc.
  reflexivity.
Qed.

Lemma run_one_returned (pipeline : string -> Client -> M record)
      (client : Client) (url : string) (s s1 : state) (rec : record) :
  pipeline url client s = (Return rec, s1) ->
  run_one pipeline client url s = (Return rec, s1).
Proof.
  intros E. unfold run_one. unfold bind at 1, attempt_of. now rewrite E.
Qed.

Lemma run_one_raised (pipeline : string -> Client -> M record)
      (client : Client) (url : string) (s s1 : state) (e : exn) :
  pipeline url client s = (Raise e, s1) ->
  run_one pipeline client url s
  = (Return (attach_meta (empty_record url)
                         (failure_meta SYSTEM_ERROR (timestamp_at s1))),
     after_timestamp s1).
Proof.
  intros E. unfold run_one. unfold bind at 1, attempt_of. rewrite E.
  destruct registered_rows as (_ & _ & _ & Hs).
  unfold bind at 1. rewrite (make_meta_registered SYSTEM_ERROR) by exact Hs.
  reflexivity.
Qed.

Lemma for_each_url_cons (pipeline : string -> Client -> M record)
      (client : Client) (url : string) (rest : list string)
      (results : list record) (s s1 : state) (rec : record) :
  run_one pipeline client url s = (Return rec, s1) ->
  for_each_url pipeline client (url :: rest) results s
  = for_each_url pipeline client rest (results ++ [rec]) s1.
Proof. intros E. cbn [for_each_url]. unfold bind at 1. now rewrite E. Qed.


(** C3. When the fetch of a URL fails (the collaborator raises or signals
    non-success, or the URL is blank), the pipeline returns one record for
    the URL: status CRAWL_FAILED (000100), every field but the URL null, no
    crawl, extraction or total duration, no attempt and no call of the
    extraction collaborator; the loop of the run appends that one record and
    goes on with the next URL. *)
Theorem fetch_failure_record (url : string) (client : Client) (s : state) :
  fetch_failure url s ->
  exists rec meta s',
    process_url url client s = (Return rec, s')
    /\ Dict.get rec "meta" = Some meta
    /\ json_get meta "status_key" = Some (JStr "CRAWL_FAILED")
    /\ json_get meta "status_code" = Some (JStr "000100")
    /\ json_get meta "crawl_duration_sec" = Some JNull
    /\ json_get meta "gemini_duration_sec" = Some JNull
    /\ json_get meta "total_duration_sec" = Some JNull
    /\ json_get meta "gemini_attempts" = Some (JInt 0)
    /\ url_only url rec
    /\ (events s' = events s
        \/ events s' = events s ++ [EvCrawl (PyStr.strip url)])
    /\ (forall rest results,
          for_each_url process_url client (url :: rest) results s
          = for_each_url process_url client rest (results ++ [rec]) s').
Proof.
  intros Hf. apply fetch_failure_raises in Hf. destruct Hf as (e & s1 & E).
  pose proof (process_url_fetch_failed url client s s1 e E) as P.
  do 3 eexists. split; [exact P|].
  split; [apply attach_meta_meta|].
  do 6 (split; [reflexivity|]).
  split; [apply attach_meta_url_only, empty_record_url_only|].
  split.
  - cbn [after_timestamp events].
    destruct (string_dec (PyStr.strip url) "") as [Hb|Hb].
    + rewrite fetch_blank in E by assumption. inversion E; subst s1. now left.
    + rewrite fetch_crawled in E by assumption. right.
      destruct (fst (crawl_answer url s)) as [result|e'].
      * destruct (success result); inversion E; reflexivity.
      * inversion E; reflexivity.
  - intros rest results. apply for_each_url_cons.
    now apply run_one_returned.
Qed.

Lemma after_attempts_events (client : Client) (cands : list string)
      (content : string) (n : nat) :
  forall s,
    events (after_attempts n client cands content s)
    = events s ++ repeat (EvGenerate GEMINI_MODEL cands content) n.
Proof.
  induction n as [|n IH]; intros s; cbn [after_attempts repeat].
  - now rewrite app_nil_r.
  - rewrite IH, after_attempt_events, <- app_assoc. reflexivity.
Qed.

(** The extraction when every attempt fails: the URL-only record, and the
    number of attempts made is the configured maximum, or none when the
    maximum is negative. *)
Lemma extract_exhausted (client : Client) (url page_text raw_html : string)
      (crawl_duration : float) (s : state) :
  let cands := extract_phone_candidates_from_html raw_html in
  let content := PyStr.slice_to MAX_CONTENT_CHARS page_text in
  let n := Z.to_nat GEMINI_MAX_ATTEMPTS in
  all_attempts_fail n client cands content (after_clock s) ->
  exists meta,
    extract_with_gemini client url page_text raw_html crawl_duration s
    = (Return (empty_record url, meta),
       after_timestamp
         (after_clock (after_attempts n client cands content (after_clock s))))
    /\ json_get meta "status_key" = Some (JStr "GEMINI_CALL_FAILED")
    /\ json_get meta "status_code" = Some (JStr "000200")
    /\ json_get meta "gemini_attempts"
       = Some (JInt (Z.max 0 GEMINI_MAX_ATTEMPTS)).
Proof.
  intros cands content n Hall.
  destruct (gemini_loop_exhausted client url cands content n
              (mkVars 0 None None) (after_clock s))
    as (v & E & Hv); [cbn [attempts]; subst n; f_equal; lia|exact Hall|].
  rewrite (extract_with_gemini_eq _ _ _ _ _ _ _ _ _ E).
  eexists. split; [reflexivity|]. cbn [attempts] in Hv.
  repeat split. cbn. now rewrite Hv.
Qed.

(** C4, as the code has it. When the fetch of a URL succeeded and every
    attempt of the extraction fails (the collaborator raises, or its
    response does not decode to a JSON object), the pipeline returns the
    URL-only record with status GEMINI_CALL_FAILED (000200): nothing of a
    failed attempt is kept in the record. The collaborator was called, and
    the attempt count recorded is, the configured maximum when that is not
    negative, and zero when it is negative. *)
Theorem extraction_exhausted_record (url : string) (client : Client)
        (s s1 : state) (page_text raw_html : string) (crawl_duration : float) :
  let cands := extract_phone_candidates_from_html raw_html in
  let content := PyStr.slice_to MAX_CONTENT_CHARS page_text in
  fetch_page_text_and_html url s
  = (Return (page_text, raw_html, crawl_duration), s1) ->
  all_attempts_fail (Z.to_nat GEMINI_MAX_ATTEMPTS) client cands content
                    (after_clock s1) ->
  exists meta s',
    process_url url client s
    = (Return (attach_meta (empty_record url) meta), s')
    /\ json_get meta "status_key" = Some (JStr "GEMINI_CALL_FAILED")
    /\ json_get meta "status_code" = Some (JStr "000200")
    /\ url_only url (attach_meta (empty_record url) meta)
    /\ json_get meta "gemini_attempts"
       = Some (JInt (Z.max 0 GEMINI_MAX_ATTEMPTS))
    /\ ((0 <= GEMINI_MAX_ATTEMPTS)%Z ->
        json_get meta "gemini_attempts" = Some (JInt GEMINI_MAX_ATTEMPTS))
    /\ events s'
       = events s1 ++ repeat (EvGenerate GEMINI_MODEL cands content)
                             (Z.to_nat GEMINI_MAX_ATTEMPTS).
Proof.
  intros cands content Hfetch Hall.
  destruct (extract_exhausted client url page_text raw_html crawl_duration
                              s1 Hall) as (meta & E & Hk & Hc & Ha).
  rewrite (process_url_fetched _ _ _ _ _ _ _ Hfetch).
  unfold bind at 1. rewrite E. unfold ret.
  do 2 eexists. split; [reflexivity|].
  split; [exact Hk|]. split; [exact Hc|].
  split; [apply attach_meta_url_only, empty_record_url_only|].
  split; [exact Ha|]. split.
  - intros H0. rewrite Ha. now rewrite Z.max_r.
  - cbn [after_timestamp after_clock events].
    now rewrite after_attempts_events.
Qed.

(** C9, as the code has it. When the configured maximum is zero or
    negative, the extraction calls the collaborator not once (it logs no
    call), and returns the URL-only record with status GEMINI_CALL_FAILED
    and an attempt count of zero. That count is the configured maximum
    exactly when the maximum is zero: the guarantee that the count equals
    the maximum holds at 0 and fails for every negative maximum, so it
    needs the maximum to be at least 0. *)
Theorem no_attempt_when_max_not_positive (client : Client)
        (url page_text raw_html : string) (crawl_duration : float)
        (s : state) :
  (GEMINI_MAX_ATTEMPTS <= 0)%Z ->
  exists meta s',
    extract_with_gemini client url page_text raw_html crawl_duration s
    = (Return (empty_record url, meta), s')
    /\ events s' = events s
    /\ json_get meta "status_key" = Some (JStr "GEMINI_CALL_FAILED")
    /\ json_get meta "gemini_attempts" = Some (JInt 0)
    /\ url_only url (empty_record url)
    /\ (json_get meta "gemini_attempts" = Some (JInt GEMINI_MAX_ATTEMPTS)
        <-> GEMINI_MAX_ATTEMPTS = 0%Z)
    /\ ((GEMINI_MAX_ATTEMPTS < 0)%Z ->
        json_get meta "gemini_attempts" <> Some (JInt GEMINI_MAX_ATTEMPTS)).
Proof.
  intros Hmax.
  pose proof (gemini_loop_done client url
                (extract_phone_candidates_from_html raw_html)
                (PyStr.slice_to MAX_CONTENT_CHARS page_text)
                (mkVars 0 None None) (after_clock s) Hmax) as E.
  rewrite (extract_with_gemini_eq _ _ _ _ _ _ _ _ _ E).
  do 2 eexists. split; [reflexivity|]. split; [reflexivity|].
  split; [reflexivity|]. split; [reflexivity|].
  split; [apply empty_record_url_only|]. split.
  - cbn. split; [intros H; inversion H; reflexivity|intros ->; reflexivity].
  - intros Hneg H. cbn in H. inversion H. lia.
Qed.

(** The pipeline always returns, with a record for its URL. *)
Lemma process_url_returns (url : string) (client : Client) (s : state) :
  exists rec s',
    process_url url client s = (Return rec, s')
    /\ Dict.keys rec = FIELD_NAMES ++ ["meta"]
    /\ (url_only url rec \/ exists d, merged url d rec).
Proof.
  destruct (fetch_page_text_and_html url s) as [[[[pt rh] cd]|e] s1] eqn:E.
  - rewrite (process_url_fetched _ _ _ _ _ _ _ E).
    destruct (extract_with_gemini_returns client url pt rh cd s1)
      as (rec & meta & s' & Ex & Hk & Hr).
    unfold bind at 1. rewrite Ex. unfold ret. do 2 eexists.
    split; [reflexivity|]. split; [now apply attach_meta_keys|].
    destruct Hr as [Hr|[d Hr]].
    + left. now apply attach_meta_url_only.
    + right. exists d. now apply attach_meta_merged.
  - rewrite (process_url_fetch_failed _ _ _ _ _ E). do 2 eexists.
    split; [reflexivity|].
    split; [apply attach_meta_keys, empty_record_keys|].
    left. apply attach_meta_url_only, empty_record_url_only.
Qed.


(** C5. On every path the [url] field of the record is the URL that was
    processed: in the record the pipeline returns, in the record the run
    makes of a pipeline that raised, and in the record built from a
    collaborator response whatever [url] that response holds. *)
Theorem url_field_is_input_url :
  (forall url client s,
      exists rec s',
        run_one process_url client url s = (Return rec, s')
        /\ Dict.get rec "url" = Some (JStr url))
  /\ (forall pipeline client url s e s1,
        pipeline url client s = (Raise e, s1) ->
        exists rec s',
          run_one pipeline client url s = (Return rec, s')
          /\ Dict.get rec "url" = Some (JStr url))
  /\ (forall url d,
        exists rec,
          fill_record url (JObj d) FIELD_NAMES (empty_record url) = Return rec
          /\ Dict.get rec "url" = Some (JStr url)).
Proof.
  repeat split.
  - intros url client s.
    destruct (process_url_returns url client s) as (rec & s' & E & _ & Hr).
    rewrite (run_one_returned _ _ _ _ _ _ E). do 2 eexists.
    split; [reflexivity|]. destruct Hr as [[Hu _]|[d [Hu _]]]; exact Hu.
  - intros pipeline client url s e s1 E.
    rewrite (run_one_raised _ _ _ _ _ _ E). do 2 eexists.
    split; [reflexivity|]. reflexivity.
  - intros url d. rewrite fill_record_object. eexists.
    split; reflexivity.
Qed.

(** *** The run *)

Lemma opt_truthy_some (o : option string) :
  opt_truthy o = true -> exists k, o = Some k /\ PyStr.truthy k = true.
Proof. destruct o as [k|]; simpl; [eauto|discriminate]. Qed.

Lemma configure_with_credential (k : string) (s : state) :
  api_credential = Some k ->
  exists s', configure_gemini_client s = (Return (mkClient k), s').
Proof.
  unfold api_credential, configure_gemini_client. intros H.
  unfold bind at 1, getenv, bind at 1, emit, ret. cbn [world events].
  destruct (opt_truthy (environ "GEMINI_API_KEY")) eqn:E1.
  - apply opt_truthy_some in E1. destruct E1 as (k1 & Hk1 & T1).
    rewrite Hk1 in *. inversion H; subst k1. unfold bind at 1, ret.
    rewrite T1. eauto.
  - destruct (opt_truthy (environ "GOOGLE_API_KEY")) eqn:E2; [|discriminate].
    apply opt_truthy_some in E2. destruct E2 as (k2 & Hk2 & T2).
    rewrite Hk2 in *. inversion H; subst k2.
    unfold bind at 1, bind at 1, emit, ret. cbn [world events].
    rewrite T2. eauto.
Qed.

Lemma configure_without_credential (s : state) :
  api_credential = None ->
  exists e s', configure_gemini_client s = (Raise (RuntimeError e), s').
Proof.
  unfold api_credential, configure_gemini_client. intros H.
  unfold bind at 1, getenv, bind at 1, emit, ret. cbn [world events].
  destruct (opt_truthy (environ "GEMINI_API_KEY")) eqn:E1.
  - apply opt_truthy_some in E1. destruct E1 as (k1 & Hk1 & T1). congruence.
  - destruct (opt_truthy (environ "GOOGLE_API_KEY")) eqn:E2.
    + apply opt_truthy_some in E2. destruct E2 as (k2 & Hk2 & T2). congruence.
    + unfold bind at 1, bind at 1, emit, ret. cbn [world events].
      destruct (environ "GOOGLE_API_KEY") as [k2|]; [|unfold raise; eauto].
      simpl in E2. rewrite E2. unfold raise. eauto.
Qed.

(** One pass of the loop never raises: the record is the one the pipeline
    returned, or the SYSTEM_ERROR record of the URL. *)
Lemma run_one_returns (pipeline : string -> Client -> M record)
      (client : Client) (url : string) (s : state) :
  exists rec s',
    run_one pipeline client url s = (Return rec, s')
    /\ (pipeline url client s = (Return rec, s')
        \/ exists e s1,
            pipeline url client s = (Raise e, s1)
            /\ rec = attach_meta (empty_record url)
                                 (failure_meta SYSTEM_ERROR (timestamp_at s1))).
Proof.
  destruct (pipeline url client s) as [[rec|e] s1] eqn:E.
  - rewrite (run_one_returned _ _ _ _ _ _ E). eauto.
  - rewrite (run_one_raised _ _ _ _ _ _ E). do 2 eexists.
    split; [reflexivity|]. right. eauto.
Qed.

Lemma run_one_keeps_url (pipeline : string -> Client -> M record)
      (client : Client) (url : string) (s : state) :
  keeps_url pipeline ->
  exists rec s',
    run_one pipeline client url s = (Return rec, s')
    /\ Dict.get rec "url" = Some (JStr url).
Proof.
  intros Hp. destruct (run_one_returns pipeline client url s)
    as (rec & s' & E & [Hr|(e & s1 & _ & ->)]); do 2 eexists;
    (split; [exact E|]); [eapply Hp; eauto|reflexivity].
Qed.

(** The loop adds one record per URL, in the order of the URLs. *)
Lemma for_each_url_spec (pipeline : string -> Client -> M record)
      (client : Client) (urls : list string) :
  keeps_url pipeline ->
  forall results s,
    exists new s',
      for_each_url pipeline client urls results s = (Return (results ++ new), s')
      /\ urls_of new = map (fun u => Some (JStr u)) urls.
Proof.
  intros Hp. induction urls as [|url rest IH]; intros results s.
  - exists [], s. rewrite app_nil_r. split; reflexivity.
  - destruct (run_one_keeps_url pipeline client url s Hp)
      as (rec & s1 & E & Hu).
    rewrite (for_each_url_cons _ _ _ _ _ _ _ _ E).
    destruct (IH (results ++ [rec]) s1) as (new & s' & E' & Hn).
    exists (rec :: new), s'. rewrite E', <- app_assoc.
    split; [reflexivity|]. cbn [urls_of map]. unfold urls_of in Hn.
    now rewrite Hu, Hn.
Qed.

Lemma process_url_keeps_url : keeps_url process_url.
Proof.
  intros url client s rec s' E.
  destruct (process_url_returns url client s) as (rec' & s'' & E' & _ & Hr).
  rewrite E in E'. inversion E'; subst.
  destruct Hr as [[Hu _]|[d [Hu _]]]; exact Hu.
Qed.

Lemma configure_gemini_client_state (k : string) (s : state) :
  api_credential = Some k ->
  configure_gemini_client s
  = (Return (mkClient k), mkState (world s) (events s ++ credential_reads)).
Proof.
  unfold api_credential, configure_gemini_client, credential_reads. intros H.
  unfold bind at 1, getenv, bind at 1, emit, ret. cbn [world events].
  destruct (opt_truthy (environ "GEMINI_API_KEY")) eqn:E1.
  - destruct (opt_truthy_some _ E1) as (k1 & Hk1 & T1). rewrite Hk1 in *.
    inversion H; subst k1. unfold bind at 1, ret. now rewrite T1.
  - unfold bind at 1, bind at 1, emit, ret. cbn [world events].
    rewrite <- app_assoc. cbn [app].
    destruct (opt_truthy (environ "GOOGLE_API_KEY")) eqn:E2; [|discriminate].
    destruct (opt_truthy_some _ E2) as (k2 & Hk2 & T2). rewrite Hk2 in *.
    inversion H; subst k2. now rewrite T2.
Qed.

Lemma with_crawler_ok {A} (body : M A) (s s1 : state) (a : A) :
  crawler_session_ok ->
  body (after_start s) = (Return a, s1) ->
  with_crawler body s = (Return a, after_close s1).
Proof.
  intros [Hstart Hclose] E. unfold with_crawler.
  unfold bind at 1, emit. unfold bind at 1, call. cbn [world events].
  specialize (Hstart (world s)). unfold after_start in E.
  destruct (crawler_start (world s)) as [r w]. cbn [fst snd] in *. subst r.
  unfold bind at 1, attempt_of. rewrite E.
  unfold bind at 1, emit. unfold bind at 1, call. cbn [world events].
  specialize (Hclose (world s1)). unfold after_close, of_outcome.
  destruct (crawler_close (world s1)) as [r w']. cbn [fst snd] in *.
  now subst r.
Qed.

Lemma write_output_ok (results : list record) (s : state) :
  write_ok ->
  write_output results s = (Return tt, after_write results s).
Proof.
  intros Hw. unfold write_output, bind, emit, call, after_write.
  cbn [world events]. specialize (Hw results (world s)).
  destruct (write_text OUTPUT_FILE results (world s)) as [r w].
  cbn [fst snd] in *. now subst r.
Qed.

(** The loop yields the records of the run, after the ones it was given. *)
Lemma for_each_url_run (pipeline : string -> Client -> M record)
      (client : Client) (urls : list string) :
  forall results s,
    exists recs s',
      for_each_url pipeline client urls results s
      = (Return (results ++ recs), s')
      /\ run_of pipeline client urls s recs s'.
Proof.
  induction urls as [|url rest IH]; intros results s.
  - exists [], s. rewrite app_nil_r. split; [reflexivity|constructor].
  - destruct (pipeline url client s) as [[rec|e] s1] eqn:E.
    + rewrite (for_each_url_cons _ _ _ _ _ _ _ _
                 (run_one_returned _ _ _ _ _ _ E)).
      destruct (IH (results ++ [rec]) s1) as (recs & s' & E' & Hr).
      exists (rec :: recs), s'. rewrite E', <- app_assoc.
      split; [reflexivity|]. econstructor; eauto.
    + rewrite (for_each_url_cons _ _ _ _ _ _ _ _
                 (run_one_raised _ _ _ _ _ _ E)).
      destruct (IH (results ++ [attach_meta (empty_record url)
                                  (failure_meta SYSTEM_ERROR (timestamp_at s1))])
                   (after_timestamp s1)) as (recs & s' & E' & Hr).
      exists (system_error_record url s1 :: recs), s'.
      rewrite E', <- app_assoc. split; [reflexivity|].
      eapply run_raised; eauto.
Qed.

Lemma run_of_length (pipeline : string -> Client -> M record)
      (client : Client) (urls : list string) (s s' : state)
      (recs : list record) :
  run_of pipeline client urls s recs s' ->
  List.length recs = List.length urls.
Proof. induction 1; cbn [List.length]; congruence. Qed.

Lemma run_of_urls (pipeline : string -> Client -> M record)
      (client : Client) (urls : list string) (s s' : state)
      (recs : list record) :
  keeps_url pipeline ->
  run_of pipeline client urls s recs s' ->
  urls_of recs = map (fun u => Some (JStr u)) urls.
Proof.
  intros Hp. induction 1; [reflexivity| |];
    unfold urls_of in *; cbn [map]; rewrite IHrun_of; f_equal.
  - eapply Hp; eauto.
Qed.

Lemma system_error_record_spec (url : string) (s1 : state) :
  url_only url (system_error_record url s1)
  /\ Dict.keys (system_error_record url s1) = FIELD_NAMES ++ ["meta"]
  /\ exists meta,
      Dict.get (system_error_record url s1) "meta" = Some meta
      /\ json_get meta "status_key" = Some (JStr "SYSTEM_ERROR")
      /\ json_get meta "status_code" = Some (JStr "000500")
      /\ json_get meta "gemini_attempts" = Some (JInt 0).
Proof.
  unfold system_error_record.
  split; [apply attach_meta_url_only, empty_record_url_only|].
  split; [apply attach_meta_keys, empty_record_keys|].
  eexists. split; [apply attach_meta_meta|]. repeat split.
Qed.

(** The run with the credential set, a browser session that starts and
    closes and an output file that can be written. *)
Lemma main_with_runs (pipeline : string -> Client -> M record)
      (lines : list string) (k : string) (s : state) :
  api_credential = Some k ->
  crawler_session_ok ->
  write_ok ->
  read_urls lines <> [] ->
  exists results s1,
    run_of pipeline (mkClient k) (read_urls lines) (loop_start s) results s1
    /\ main_with pipeline (Some lines) s
       = (Return tt, after_write results (after_clock (after_close s1))).
Proof.
  intros Hk Hc Hw Hne. unfold main_with.
  destruct (read_urls lines) as [|u us] eqn:Eu; [contradiction|].
  destruct (for_each_url_run pipeline (mkClient k) (u :: us) [] (loop_start s))
    as (results & s1 & Ef & Hr).
  exists results, s1. split; [exact Hr|].
  unfold bind at 1. rewrite (configure_gemini_client_state k s Hk).
  unfold bind at 1. rewrite ask_perf_counter.
  unfold bind at 1. rewrite (with_crawler_ok _ _ s1 results Hc Ef).
  unfold bind at 1. rewrite ask_perf_counter.
  now apply write_output_ok.
Qed.

(** C1, as the code has it. With the credential set, a browser session that
    starts and closes and an output file that can be written, the run of any
    per-URL pipeline completes, however many URLs fail. With no URL in the
    file it does nothing. Otherwise the last thing it does is to write the
    results, which are the records of the run over the non-blank,
    non-comment lines in their order: for each URL the record the pipeline
    returned for it, and for a URL at which the pipeline raised the
    URL-only record with status SYSTEM_ERROR, the run going on with the next
    URL. There is one record per URL, and the records are for the URLs in
    order when the pipeline returns records for its URL. *)
Theorem main_one_record_per_url (pipeline : string -> Client -> M record)
        (lines : list string) (k : string) (s : state) :
  api_credential = Some k ->
  crawler_session_ok ->
  write_ok ->
  let urls := read_urls lines in
  (urls = [] /\ main_with pipeline (Some lines) s = (Return tt, s))
  \/ (urls <> []
      /\ exists results s1 s',
          main_with pipeline (Some lines) s = (Return tt, s')
          /\ run_of pipeline (mkClient k) urls (loop_start s) results s1
          /\ s' = after_write results (after_clock (after_close s1))
          /\ events s'
             = events s1 ++ [EvCrawlerClose; EvWriteOutput OUTPUT_FILE results]
          /\ List.length results = List.length urls
          /\ (keeps_url pipeline ->
              urls_of results = map (fun u => Some (JStr u)) urls)
          /\ (forall url s0,
                url_only url (system_error_record url s0)
                /\ exists meta,
                    Dict.get (system_error_record url s0) "meta" = Some meta
                    /\ json_get meta "status_key" = Some (JStr "SYSTEM_ERROR"))).
Proof.
  intros Hk Hc Hw urls. subst urls.
  destruct (read_urls lines) as [|u us] eqn:Eu.
  - left. split; [reflexivity|]. unfold main_with. now rewrite Eu.
  - right. split; [discriminate|]. rewrite <- Eu.
    destruct (main_with_runs pipeline lines k s Hk Hc Hw)
      as (results & s1 & Hr & E); [rewrite Eu; discriminate|].
    exists results, s1. eexists. split; [exact E|]. split; [exact Hr|].
    split; [reflexivity|]. split.
    + cbn [after_write after_clock after_close events].
      now rewrite <- app_assoc.
    + split; [eapply run_of_length; eauto|].
      split; [intros Hp; eapply run_of_urls; eauto|].
      intros url s0. destruct (system_error_record_spec url s0)
        as (Hu & _ & meta & Hm & Hs & _).
      split; [exact Hu|]. eauto.
Qed.

Lemma read_urls_nil (lines : list string) :
  (forall line, In line lines ->
                PyStr.strip line = "" \/ PyStr.startswith "#" line = true) ->
  read_urls lines = [].
Proof.
  intros H. unfold read_urls. induction lines as [|l ls IH]; [reflexivity|].
  cbn [filter]. destruct (H l (or_introl eq_refl)) as [Hb|Hc].
  - rewrite Hb. cbn. apply IH. intros; apply H; now right.
  - rewrite Hc. rewrite andb_false_r. apply IH. intros; apply H; now right.
Qed.

(** C10. When the URL file exists and every line of it is blank or a
    comment, the run returns at once and leaves the world as it found it:
    it fetches and extracts nothing, does not read the credential (so it
    returns the same with or without one), and writes no output. *)
Theorem main_no_urls_returns_early (lines : list string) (s : state) :
  (forall line, In line lines ->
                PyStr.strip line = "" \/ PyStr.startswith "#" line = true) ->
  main (Some lines) s = (Return tt, s).
Proof.
  intros H. unfold main, main_with. now rewrite (read_urls_nil lines H).
Qed.

(** With a URL to process and no credential the run raises before it
    processes anything. *)
Lemma main_missing_credential (lines : list string) (s : state) :
  api_credential = None ->
  read_urls lines <> [] ->
  exists msg s',
    main (Some lines) s = (Raise (RuntimeError msg), s')
    /\ forall e, In e (events s') -> In e (events s) \/ exists n, e = EvGetenv n.
Proof.
  intros Hc Hne. unfold main, main_with.
  destruct (read_urls lines) as [|u us]; [contradiction|].
  unfold api_credential in Hc. unfold configure_gemini_client.
  unfold bind at 1, bind at 1, getenv, bind at 1, emit, ret.
  cbn [world events].
  destruct (opt_truthy (environ "GEMINI_API_KEY")) eqn:E1.
  { apply opt_truthy_some in E1. destruct E1 as (k1 & Hk1 & _). congruence. }
  destruct (opt_truthy (environ "GOOGLE_API_KEY")) eqn:E2.
  { apply opt_truthy_some in E2. destruct E2 as (k2 & Hk2 & _). congruence. }
  unfold bind at 1, bind at 1, emit, ret. cbn [world events].
  assert (Hev : forall e,
             In e ((events s ++ [EvGetenv "GEMINI_API_KEY"])
                     ++ [EvGetenv "GOOGLE_API_KEY"]) ->
             In e (events s) \/ exists n, e = EvGetenv n).
  { intros e He. apply in_app_or in He. destruct He as [He|[<-|[]]]; [|eauto].
    apply in_app_or in He. destruct He as [He|[<-|[]]]; eauto. }
  destruct (environ "GOOGLE_API_KEY") as [k2|].
  - simpl in E2. rewrite E2. unfold raise. do 2 eexists. split; [reflexivity|].
    exact Hev.
  - unfold raise. do 2 eexists. split; [reflexivity|]. exact Hev.
Qed.

Lemma main_missing_file (s : state) :
  exists msg, main None s = (Raise (FileNotFoundError msg), s).
Proof. eexists. reflexivity. Qed.

(* ================================================================== *)
(** ** Further properties: the URL list *)

Lemma last_or_cons (d : option ascii) (b : ascii) (u : string) :
  PyStr.last_or d (String b u) = PyStr.last_or None (String b u).
Proof. reflexivity. Qed.

Lemma lstrip_head (s : string) :
  PyStr.lstrip s = ""
  \/ exists c t, PyStr.lstrip s = String c t /\ PyStr.isspace c = false.
Proof.
  induction s as [|a t IH]; simpl; [now left|].
  destruct (PyStr.isspace a) eqn:E; [exact IH|]. right. eauto.
Qed.

Lemma rstrip_head (c : ascii) (t : string) :
  PyStr.isspace c = false ->
  exists t', PyStr.rstrip (String c t) = String c t'.
Proof.
  intros H. simpl. destruct (PyStr.rstrip t); [rewrite H|]; eauto.
Qed.

Lemma rstrip_idem (s : string) : PyStr.rstrip (PyStr.rstrip s) = PyStr.rstrip s.
Proof.
  induction s as [|a t IH]; [reflexivity|]. simpl.
  destruct (PyStr.rstrip t) as [|b u] eqn:E.
  - destruct (PyStr.isspace a) eqn:Ea; [reflexivity|]. simpl. now rewrite Ea.
  - change (PyStr.rstrip (String a (String b u)))
      with (match PyStr.rstrip (String b u) with
            | EmptyString =>
                if PyStr.isspace a then EmptyString else String a EmptyString
            | t' => String a t'
            end).
    now rewrite IH.
Qed.

Lemma rstrip_last (s : string) (c : ascii) :
  PyStr.last_or None (PyStr.rstrip s) = Some c -> PyStr.isspace c = false.
Proof.
  induction s as [|a t IH]; simpl; [discriminate|].
  destruct (PyStr.rstrip t) as [|b u] eqn:E.
  - destruct (PyStr.isspace a) eqn:Ea; simpl; [discriminate|]. congruence.
  - intros H. apply IH. exact H.
Qed.

Lemma strip_idem (s : string) : PyStr.strip (PyStr.strip s) = PyStr.strip s.
Proof.
  unfold PyStr.strip. destruct (lstrip_head s) as [E|(c & t & E & Hc)];
    rewrite E; [reflexivity|].
  destruct (rstrip_head c t Hc) as (t' & Er). rewrite Er.
  rewrite lstrip_id by exact Hc. rewrite <- Er. apply rstrip_idem.
Qed.

Lemma strip_edges (s : string) :
  (forall c, PyStr.head (PyStr.strip s) = Some c -> PyStr.isspace c = false)
  /\ (forall c, PyStr.last_or None (PyStr.strip s) = Some c ->
                PyStr.isspace c = false).
Proof.
  split; [|intros c; apply rstrip_last].
  unfold PyStr.strip. intros c.
  destruct (lstrip_head s) as [E|(a & t & E & Ha)]; rewrite E;
    [discriminate|].
  destruct (rstrip_head a t Ha) as (t' & Er). rewrite Er. simpl. congruence.
Qed.

Lemma fetch_events (url : string) (s : state) :
  PyStr.strip url <> "" ->
  events (snd (fetch_page_text_and_html url s))
  = events s ++ [EvCrawl (PyStr.strip url)].
Proof.
  intros H. rewrite fetch_crawled by exact H.
  destruct (fst (crawl_answer url s)) as [result|e]; [|reflexivity].
  destruct (success result); reflexivity.
Qed.

Lemma read_urls_app (l1 l2 : list string) :
  read_urls (l1 ++ l2) = read_urls l1 ++ read_urls l2.
Proof. unfold read_urls. now rewrite filter_app, map_app. Qed.

Lemma read_urls_in (lines : list string) (url : string) :
  In url (read_urls lines) <->
  exists line,
    In line lines /\ url = PyStr.strip line /\ PyStr.strip line <> ""
    /\ PyStr.startswith "#" line = false.
Proof.
  unfold read_urls. rewrite in_map_iff. split.
  - intros (line & <- & Hin). apply filter_In in Hin. destruct Hin as [Hin Hk].
    apply andb_prop in Hk. destruct Hk as [Ht Hc].
    exists line. split; [exact Hin|]. split; [reflexivity|]. split.
    + intros E. rewrite E in Ht. discriminate.
    + now apply negb_true_iff in Hc.
  - intros (line & Hin & -> & Hne & Hc). exists line. split; [reflexivity|].
    apply filter_In. split; [exact Hin|]. rewrite Hc.
    destruct (PyStr.truthy (PyStr.strip line)) eqn:T; [reflexivity|].
    apply truthy_false in T. contradiction.
Qed.

Lemma read_urls_cons (line : string) (rest : list string) :
  read_urls (line :: rest)
  = (if String.eqb (PyStr.strip line) "" || PyStr.startswith "#" line
     then [] else [PyStr.strip line])
    ++ read_urls rest.
Proof.
  unfold read_urls. cbn [filter].
  destruct (PyStr.strip line) as [|c t] eqn:E; cbn [PyStr.truthy andb orb];
    [reflexivity|].
  change (String.eqb (String c t) "") with false. cbn [orb].
  destruct (PyStr.startswith "#" line); cbn [negb map app];
    [reflexivity|now rewrite E].
Qed.

Lemma startswith_hash_blank (c : ascii) (t : string) :
  PyStr.isspace c = true -> PyStr.startswith "#" (String c t) = false.
Proof.
  intros H. cbn [PyStr.startswith].
  destruct (Ascii.eqb "#" c) eqn:E; [|reflexivity].
  apply Ascii.eqb_eq in E. subst c. discriminate.
Qed.

(** X1. The URLs the run processes are, line after line and in the order
    of the lines, the stripped text of every line that is not blank and
    does not start with [#], once per such line, and nothing for the other
    lines; the comment test looks at the line as it is, so a line that
    starts with a blank is kept whenever it is not blank, also when a [#]
    follows the blanks. Every URL of the list is non-empty with no blank at
    either end, so stripping it again changes nothing, the fetch of it
    never takes the empty-URL exit and the crawler is called with exactly
    that URL. *)
Theorem read_urls_are_stripped :
  read_urls [] = []
  /\ (forall line rest,
        read_urls (line :: rest)
        = (if String.eqb (PyStr.strip line) "" || PyStr.startswith "#" line
           then [] else [PyStr.strip line])
          ++ read_urls rest)
  /\ (forall c t rest,
        PyStr.isspace c = true ->
        PyStr.strip (String c t) <> "" ->
        read_urls (String c t :: rest)
        = PyStr.strip (String c t) :: read_urls rest)
  /\ (forall lines url s,
        In url (read_urls lines) ->
        url <> ""
        /\ PyStr.strip url = url
        /\ (forall c, PyStr.head url = Some c -> PyStr.isspace c = false)
        /\ (forall c, PyStr.last_or None url = Some c ->
                      PyStr.isspace c = false)
        /\ events (snd (fetch_page_text_and_html url s))
           = events s ++ [EvCrawl url]).
Proof.
  split; [reflexivity|]. split; [exact read_urls_cons|]. split.
  - intros c t rest Hc Hne. rewrite read_urls_cons.
    rewrite (startswith_hash_blank c t Hc), orb_false_r.
    apply String.eqb_neq in Hne. now rewrite Hne.
  - intros lines url s Hin. apply read_urls_in in Hin.
    destruct Hin as (line & Hl & -> & Hne & Hc).
    split; [exact Hne|]. split; [apply strip_idem|].
    destruct (strip_edges line) as [Hh Ht]. split; [exact Hh|].
    split; [exact Ht|].
    rewrite fetch_events; rewrite strip_idem; [reflexivity|exact Hne].
Qed.

(* ================================================================== *)
(** ** Further properties: credential, registry indices and meta *)

Lemma configure_gemini_client_credential_aux (s : state) :
  api_credential = None ->
  exists msg s',
    configure_gemini_client s = (Raise (RuntimeError msg), s')
    /\ world s' = world s
    /\ events s'
       = events s ++ [EvGetenv "GEMINI_API_KEY"; EvGetenv "GOOGLE_API_KEY"].
Proof.
  unfold api_credential, configure_gemini_client. intros H.
  unfold bind at 1, getenv, bind at 1, emit, ret. cbn [world events].
  destruct (opt_truthy (environ "GEMINI_API_KEY")) eqn:E1.
  { destruct (opt_truthy_some _ E1) as (k1 & Hk1 & _). congruence. }
  destruct (opt_truthy (environ "GOOGLE_API_KEY")) eqn:E2.
  { destruct (opt_truthy_some _ E2) as (k2 & Hk2 & _). congruence. }
  unfold bind at 1, bind at 1, emit, ret. cbn [world events].
  rewrite <- app_assoc. cbn [app].
  destruct (environ "GOOGLE_API_KEY") as [k2|]; unfold raise.
  - simpl in E2. rewrite E2. do 2 eexists. repeat split.
  - do 2 eexists. repeat split.
Qed.

Lemma configure_gemini_client_some (k : string) (s : state) :
  api_credential = Some k ->
  exists s',
    configure_gemini_client s = (Return (mkClient k), s')
    /\ k <> ""
    /\ world s' = world s
    /\ events s'
       = events s
         ++ (if opt_truthy (environ "GEMINI_API_KEY")
             then [EvGetenv "GEMINI_API_KEY"]
             else [EvGetenv "GEMINI_API_KEY"; EvGetenv "GOOGLE_API_KEY"]).
Proof.
  unfold api_credential, configure_gemini_client. intros H.
  unfold bind at 1, getenv, bind at 1, emit, ret. cbn [world events].
  destruct (opt_truthy (environ "GEMINI_API_KEY")) eqn:E1.
  - destruct (opt_truthy_some _ E1) as (k1 & Hk1 & T1). rewrite Hk1 in *.
    inversion H; subst k1.
    unfold bind at 1, ret. rewrite T1. eexists.
    split; [reflexivity|]. split; [|split; reflexivity].
    intros ->. discriminate.
  - unfold bind at 1, bind at 1, emit, ret. cbn [world events].
    rewrite <- app_assoc. cbn [app].
    destruct (opt_truthy (environ "GOOGLE_API_KEY")) eqn:E2; [|discriminate].
    destruct (opt_truthy_some _ E2) as (k2 & Hk2 & T2). rewrite Hk2 in *.
    inversion H; subst k2. rewrite T2. eexists.
    split; [reflexivity|]. split; [|split; reflexivity].
    intros ->. discriminate.
Qed.

(** X2. The client is configured from the first of GEMINI_API_KEY and
    GOOGLE_API_KEY that is set and not empty (an empty value counts as
    unset), and the second variable is read only when the first gives
    nothing; with neither, the configuration raises [RuntimeError]. Only
    the environment is read: the world stays as it was. *)
Theorem configure_gemini_client_credential (s : state) :
  match api_credential with
  | Some k =>
      exists s',
        configure_gemini_client s = (Return (mkClient k), s')
        /\ k <> ""
        /\ world s' = world s
        /\ events s'
           = events s
             ++ (if opt_truthy (environ "GEMINI_API_KEY")
                 then [EvGetenv "GEMINI_API_KEY"]
                 else [EvGetenv "GEMINI_API_KEY"; EvGetenv "GOOGLE_API_KEY"])
  | None =>
      exists msg s',
        configure_gemini_client s = (Raise (RuntimeError msg), s')
        /\ world s' = world s
        /\ events s'
           = events s ++ [EvGetenv "GEMINI_API_KEY"; EvGetenv "GOOGLE_API_KEY"]
  end.
Proof.
  destruct api_credential as [k|] eqn:H.
  - exact (configure_gemini_client_some k s H).
  - exact (configure_gemini_client_credential_aux s H).
Qed.

(** X3. With at least one URL in the file and no credential, the run raises
    [RuntimeError] after reading the two environment variables and nothing
    else: no page is fetched, the model is not called and no output is
    written. *)
Theorem main_aborts_without_credential (lines : list string) (s : state) :
  api_credential = None ->
  read_urls lines <> [] ->
  exists msg s',
    main (Some lines) s = (Raise (RuntimeError msg), s')
    /\ world s' = world s
    /\ events s'
       = events s ++ [EvGetenv "GEMINI_API_KEY"; EvGetenv "GOOGLE_API_KEY"].
Proof.
  intros Hc Hne. unfold main, main_with.
  destruct (read_urls lines) as [|u us]; [contradiction|].
  pose proof (configure_gemini_client_credential_aux s Hc)
    as (msg & s' & E & Hw & He).
  unfold bind at 1. rewrite E. eauto.
Qed.

Lemma get_set (d : Dict.dict StatusRow) (k k' : string) (v : StatusRow) :
  Dict.get (Dict.set d k v) k'
  = if String.eqb k k' then Some v else Dict.get d k'.
Proof.
  destruct (String.eqb k k') eqn:E.
  - apply String.eqb_eq in E. subst k'. apply get_set_same.
  - apply get_set_other. intros ->. now rewrite String.eqb_refl in E.
Qed.

Lemma index_by_snoc (key : StatusRow -> string) (rows : list StatusRow)
      (r : StatusRow) :
  index_by key (rows ++ [r]) = Dict.set (index_by key rows) (key r) r.
Proof. unfold index_by. now rewrite fold_left_app. Qed.

Lemma index_by_get (key : StatusRow -> string) (rows : list StatusRow)
      (k : string) :
  Dict.get (index_by key rows) k
  = find (fun r => String.eqb (key r) k) (rev rows).
Proof.
  induction rows as [|r rows IH] using rev_ind; [reflexivity|].
  rewrite index_by_snoc, get_set, rev_app_distr. cbn [rev app find].
  now rewrite IH.
Qed.

Lemma find_rev_unique (key : StatusRow -> string) (rows : list StatusRow)
      (r : StatusRow) :
  NoDup (map key rows) -> In r rows ->
  find (fun x => String.eqb (key x) (key r)) (rev rows) = Some r.
Proof.
  intros Hnd Hin.
  destruct (find (fun x => String.eqb (key x) (key r)) (rev rows))
    as [x|] eqn:F.
  - apply find_some in F. destruct F as [Hx Hk]. apply in_rev in Hx.
    apply String.eqb_eq in Hk. f_equal.
    clear - Hnd Hin Hx Hk. induction rows as [|a rows IH]; [contradiction|].
    cbn [map] in Hnd. inversion Hnd as [|? ? Hnot Hnd']; subst.
    destruct Hx as [->|Hx], Hin as [->|Hin]; auto.
    + exfalso. apply Hnot. rewrite Hk. now apply in_map.
    + exfalso. apply Hnot. rewrite <- Hk. now apply in_map.
  - pose proof (find_none _ _ F r (proj1 (in_rev rows r) Hin)) as Hf.
    cbv beta in Hf. rewrite String.eqb_refl in Hf. discriminate.
Qed.

(** X4. An index built from a list of rows answers a key with the last row
    of the list that has this key; the names and the codes of the status
    catalog are pairwise distinct, so both indices of the catalog give back
    every row of it, under its name and under its code, and hold nothing
    else. *)
Theorem status_indices_round_trip :
  (forall key rows k,
      Dict.get (index_by key rows) k
      = find (fun r => String.eqb (key r) k) (rev rows))
  /\ (forall row,
        In row STATUS_DEFINITIONS ->
        Dict.get STATUS_BY_NAME (cd_name row) = Some row
        /\ Dict.get STATUS_BY_CODE (cd_std row) = Some row)
  /\ (forall k row,
        Dict.get STATUS_BY_NAME k = Some row ->
        In row STATUS_DEFINITIONS /\ cd_name row = k)
  /\ (forall k row,
        Dict.get STATUS_BY_CODE k = Some row ->
        In row STATUS_DEFINITIONS /\ cd_std row = k).
Proof.
  split; [exact index_by_get|]. split; [|split].
  - intros row Hin. unfold STATUS_BY_NAME, STATUS_BY_CODE.
    rewrite !index_by_get. split.
    + apply find_rev_unique; [apply status_names_NoDup|exact Hin].
    + apply find_rev_unique; [apply status_codes_NoDup|exact Hin].
  - intros k row H. unfold STATUS_BY_NAME in H. rewrite index_by_get in H.
    apply find_some in H. destruct H as [Hin Hk]. apply in_rev in Hin.
    apply String.eqb_eq in Hk. auto.
  - intros k row H. unfold STATUS_BY_CODE in H. rewrite index_by_get in H.
    apply find_some in H. destruct H as [Hin Hk]. apply in_rev in Hin.
    apply String.eqb_eq in Hk. auto.
Qed.

(** X5. [make_meta] never raises, whatever the status name: the status key
    and code of the meta object are the name and code of one row of the
    catalog, the row of that name when the name is registered and the
    UNEXPECTED_ERROR row (000999) otherwise; the other values are the
    arguments as given, the token counts null without usage, and the
    timestamp is the clock's text followed by [Z]; only the clock is
    read. *)
Theorem make_meta_status_from_registry (status_name : string)
        (crawl total : option float) (model : option string) (att : Z)
        (us : option Usage) (dur : option float) (s : state) :
  exists row,
    In row STATUS_DEFINITIONS
    /\ make_meta status_name crawl total model att us dur s
       = (Return (asdict (mkMeta (cd_name row) (cd_std row) model att
                                 (usage_get us prompt_token_count)
                                 (usage_get us candidates_token_count)
                                 (usage_get us total_token_count)
                                 dur crawl total (Some (timestamp_at s)))),
          after_timestamp s)
    /\ (forall r, In r STATUS_DEFINITIONS -> cd_name r = status_name -> row = r)
    /\ ((forall r, In r STATUS_DEFINITIONS -> cd_name r <> status_name) ->
        cd_name row = "UNEXPECTED_ERROR" /\ cd_std row = "000999")
    /\ timestamp_at s = (fst (utcnow_isoformat (world s)) ++ "Z")%string
    /\ events (after_timestamp s) = events s.
Proof.
  destruct (status_row_in status_name) as (row & E & Hin). exists row.
  split; [exact Hin|]. split.
  - unfold make_meta, bind, of_outcome, ask, ret. rewrite E.
    unfold timestamp_at, after_timestamp.
    now destruct (utcnow_isoformat (world s)).
  - split; [|split; [|split; reflexivity]].
    + intros r Hr Hn. subst status_name.
      rewrite (status_row_registered r Hr) in E. now inversion E.
    + intros Hno. rewrite (status_row_unknown status_name Hno) in E.
      inversion E. split; reflexivity.
Qed.

(* ================================================================== *)
(** ** Further properties: attempts, calls and the order of the run *)

(** One attempt, as an equation: the handler of the [try] makes it return
    in every case. *)
Lemma gemini_attempt_eq (client : Client) (url : string)
      (cands : list string) (content : string) (v : loop_vars) (s : state) :
  gemini_attempt client url cands content v s
  = (Return
       (match fst (gemini_answer client cands content s) with
        | Raise _ => (v, None)
        | Return response =>
            (mkVars (attempts v)
                    (match usage_metadata response with
                     | Some um => Some um
                     | None => usage v
                     end)
                    (Some (PrimFloat.sub
                             (clock_at
                                (mkState
                                   (snd (gemini_answer client cands content s))
                                   (events s
                                    ++ [EvGenerate GEMINI_MODEL cands content])))
                             (clock_at s))),
             option_map (record_of url) (parsed_object response))
        end),
     after_attempt client cands content s).
Proof.
  unfold gemini_attempt, after_attempt, gemini_answer, parsed_object.
  unfold bind at 1. rewrite ask_perf_counter.
  unfold bind at 1, attempt_of, models_generate_content, bind at 1, emit, call.
  cbn [world events].
  destruct (generate_content client GEMINI_MODEL cands content
                             (world (after_clock s))) as [[response|e] w];
    cbn [fst snd]; [|reflexivity].
  unfold bind at 1. rewrite ask_perf_counter.
  assert (Hu : match usage_metadata response with
               | Some um => Some (mkUsage (prompt_token_count um)
                                          (candidates_token_count um)
                                          (total_token_count um))
               | None => usage v
               end
               = match usage_metadata response with
                 | Some um => Some um
                 | None => usage v
                 end).
  { destruct (usage_metadata response) as [[a b c]|]; reflexivity. }
  rewrite Hu.
  destruct (json_loads _) as [data|]; [|reflexivity].
  destruct data; reflexivity.
Qed.


Lemma gemini_loop_succeeds (client : Client) (url : string)
      (cands : list string) (content : string) (d : Dict.dict json)
      (k : nat) :
  forall v s,
    all_attempts_fail k client cands content s ->
    attempt_succeeds client cands content
                     (after_attempts k client cands content s) d ->
    (attempts v + Z.of_nat k < GEMINI_MAX_ATTEMPTS)%Z ->
    exists v',
      gemini_loop client url cands content v s
      = (Return (v', Some (record_of url d)),
         after_attempts (S k) client cands content s)
      /\ attempts v' = (attempts v + Z.of_nat k + 1)%Z
      /\ exists f, gemini_duration v' = Some f.
Proof.
  induction k as [|k IH]; intros v s Hall Hs Hlt.
  - rewrite gemini_loop_step by lia. cbn zeta. rewrite gemini_attempt_eq.
    cbn [after_attempts] in *. unfold attempt_succeeds in Hs.
    destruct (fst (gemini_answer client cands content s)) as [response|e];
      [|contradiction].
    rewrite Hs. cbn [option_map]. eexists. split; [reflexivity|].
    cbn [attempts gemini_duration]. split; [lia|eauto].
  - rewrite gemini_loop_step by lia. cbn zeta. destruct Hall as [Hf Hall].
    destruct (gemini_attempt_spec client url cands content
                (mkVars (attempts v + 1) (usage v) (gemini_duration v)) s)
      as (v2 & found & E & Hatt & Hiff & _).
    rewrite E. apply Hiff in Hf. subst found.
    destruct (IH (mkVars (attempts v + 1) (usage v2) (gemini_duration v2))
                 (after_attempt client cands content s) Hall Hs)
      as (v' & E' & Hv' & Hd); [cbn [attempts]; lia|].
    cbn [attempts] in *. rewrite E'. eexists. split; [reflexivity|].
    split; [lia|exact Hd].
Qed.

(** X7. When the first [k] attempts fail and the next one, within the
    configured maximum, succeeds with the object [d], the extraction
    returns the record of [d] for the URL, with status SUCCESS (000000), an
    attempt count of [k + 1], exactly [k + 1] calls of the collaborator and
    a duration of the extraction recorded: no attempt is made after the
    success. The record holds the URL given, not the one of [d], and null
    for every declared field [d] does not hold. *)
Theorem extraction_succeeds_at_attempt (client : Client)
        (url page_text raw_html : string) (crawl_duration : float)
        (s : state) (k : nat) (d : Dict.dict json) :
  let cands := extract_phone_candidates_from_html raw_html in
  let content := PyStr.slice_to MAX_CONTENT_CHARS page_text in
  all_attempts_fail k client cands content (after_clock s) ->
  attempt_succeeds client cands content
                   (after_attempts k client cands content (after_clock s)) d ->
  (Z.of_nat k < GEMINI_MAX_ATTEMPTS)%Z ->
  exists meta s' f,
    extract_with_gemini client url page_text raw_html crawl_duration s
    = (Return (record_of url d, meta), s')
    /\ merged url d (record_of url d)
    /\ Dict.keys (record_of url d) = FIELD_NAMES
    /\ json_get meta "status_key" = Some (JStr "SUCCESS")
    /\ json_get meta "status_code" = Some (JStr "000000")
    /\ json_get meta "gemini_attempts" = Some (JInt (Z.of_nat k + 1))
    /\ json_get meta "gemini_duration_sec" = Some (JFloat f)
    /\ json_get meta "crawl_duration_sec" = Some (JFloat crawl_duration)
    /\ events s'
       = events s ++ repeat (EvGenerate GEMINI_MODEL cands content) (S k).
Proof.
  intros cands content Hall Hs Hlt.
  destruct (gemini_loop_succeeds client url cands content d k
              (mkVars 0 None None) (after_clock s) Hall Hs)
    as (v & E & Hv & f & Hd); [cbn [attempts]; lia|].
  rewrite (extract_with_gemini_eq _ _ _ _ _ _ _ _ _ E).
  cbn [attempts] in Hv. do 3 eexists. split; [reflexivity|].
  split; [apply record_of_merged|]. split; [apply record_of_keys|].
  split; [reflexivity|]. split; [reflexivity|].
  split; [cbn; rewrite Hv; reflexivity|].
  split; [cbn; rewrite Hd; reflexivity|]. split; [reflexivity|].
  cbn [after_timestamp after_clock events].
  now rewrite after_attempts_events.
Qed.

Lemma gemini_loop_exhausted_vars (client : Client) (url : string)
      (cands : list string) (content : string) (n : nat) :
  forall v s,
    Z.to_nat (GEMINI_MAX_ATTEMPTS - attempts v) = n ->
    all_attempts_fail n client cands content s ->
    exists v',
      gemini_loop client url cands content v s
      = (Return (v', None), after_attempts n client cands content s)
      /\ (gemini_duration v' = None <->
          gemini_duration v = None
          /\ all_attempts_raise n client cands content s)
      /\ (all_attempts_raise n client cands content s -> usage v' = usage v).
Proof.
  induction n as [|n IH]; intros v s Hn Hall.
  - rewrite gemini_loop_done by lia. exists v. split; [reflexivity|].
    cbn [all_attempts_raise]. split; [|reflexivity].
    split; [intros H; split; [exact H|exact I]|intros [H _]; exact H].
  - rewrite gemini_loop_step by lia. cbn zeta. rewrite gemini_attempt_eq.
    destruct Hall as [Hf Hall]. cbn [all_attempts_raise].
    unfold attempt_fails in Hf. unfold attempt_raises.
    destruct (fst (gemini_answer client cands content s)) as [response|e].
    + rewrite Hf. cbn [option_map attempts usage gemini_duration].
      match goal with
      | |- context [gemini_loop _ _ _ _ ?v3 _] =>
          destruct (IH v3 (after_attempt client cands content s))
            as (v' & E' & Hd & Hu); [cbn [attempts]; lia|exact Hall|]
      end.
      rewrite E'. exists v'. split; [reflexivity|].
      cbn [gemini_duration] in Hd. split.
      * split; [intros H; apply Hd in H; destruct H; discriminate|].
        intros [_ [[] _]].
      * intros [[] _].
    + cbn [attempts usage gemini_duration].
      destruct (IH (mkVars (attempts v + 1) (usage v) (gemini_duration v))
                   (after_attempt client cands content s))
        as (v' & E' & Hd & Hu); [cbn [attempts]; lia|exact Hall|].
      rewrite E'. exists v'. split; [reflexivity|].
      cbn [gemini_duration usage] in Hd, Hu. split.
      * split.
        -- intros H. apply Hd in H. destruct H as [H1 H2]. auto.
        -- intros [H1 [_ H2]]. apply Hd. auto.
      * intros [_ H]. auto.
Qed.

(** X8. In the record of an exhausted extraction the duration of the
    extraction is null exactly when the collaborator raised at every one of
    the attempts (or none was made), and then the token counts are null
    too: as soon as one attempt got an answer, even one that did not decode,
    the failed record carries a duration. *)
Theorem exhausted_duration_null_iff_no_answer (client : Client)
        (url page_text raw_html : string) (crawl_duration : float)
        (s : state) :
  let cands := extract_phone_candidates_from_html raw_html in
  let content := PyStr.slice_to MAX_CONTENT_CHARS page_text in
  let n := Z.to_nat GEMINI_MAX_ATTEMPTS in
  all_attempts_fail n client cands content (after_clock s) ->
  exists meta s',
    extract_with_gemini client url page_text raw_html crawl_duration s
    = (Return (empty_record url, meta), s')
    /\ json_get meta "status_key" = Some (JStr "GEMINI_CALL_FAILED")
    /\ (json_get meta "gemini_duration_sec" = Some JNull <->
        all_attempts_raise n client cands content (after_clock s))
    /\ (all_attempts_raise n client cands content (after_clock s) ->
        json_get meta "gemini_prompt_tokens" = Some JNull
        /\ json_get meta "gemini_response_tokens" = Some JNull
        /\ json_get meta "gemini_total_tokens" = Some JNull).
Proof.
  intros cands content n Hall.
  destruct (gemini_loop_exhausted_vars client url cands content n
              (mkVars 0 None None) (after_clock s))
    as (v & E & Hd & Hu); [cbn [attempts]; subst n; f_equal; lia|exact Hall|].
  rewrite (extract_with_gemini_eq _ _ _ _ _ _ _ _ _ E).
  do 2 eexists. split; [reflexivity|]. split; [reflexivity|].
  cbn [gemini_duration usage] in Hd, Hu. split.
  - cbn. split.
    + intros H. apply Hd. destruct (gemini_duration v); [discriminate|].
      reflexivity.
    + intros H. destruct Hd as [_ Hd]. rewrite Hd; [reflexivity|].
      split; [reflexivity|exact H].
  - intros H. apply Hu in H. cbn. rewrite H. repeat split.
Qed.












(* ================================================================== *)
(** ** Further properties: the shape of a phone candidate, truncation *)

Lemma run_le (k : Re.cclass) (hi : nat) :
  forall s, Re.run k hi s <= hi /\ Re.run k hi s <= String.length s.
Proof.
  induction hi as [|hi IH]; intros s; destruct s as [|a t]; simpl;
    try (split; lia).
  destruct (Re.cls_match k a); [|split; lia].
  destruct (IH t). split; lia.
Qed.

Lemma length_drop (j : nat) :
  forall s, j <= String.length s ->
            String.length (PyStr.drop j s) = String.length s - j.
Proof.
  induction j as [|j IH]; intros s H; destruct s as [|a t]; simpl in *;
    try lia.
  apply IH. lia.
Qed.

Lemma length_take (n : nat) :
  forall s, n <= String.length s -> String.length (PyStr.take n s) = n.
Proof.
  induction n as [|n IH]; intros s H; destruct s as [|a t]; simpl in *;
    try lia.
  rewrite IH; lia.
Qed.

Lemma match_here_bounds (p : Re.pattern) :
  forall prev s n,
    Re.match_here p prev s = Some n ->
    min_len p <= n <= max_len p /\ n <= String.length s.
Proof.
  induction p as [|it p IH]; intros prev s n H.
  - inversion H. simpl. lia.
  - destruct it as [|k lo hi].
    + cbn [Re.match_here] in H. destruct (Re.at_boundary prev s);
        [|discriminate].
      apply IH in H. exact H.
    + apply match_rep_inv in H. destruct H as (j & r & Hj & -> & H).
      apply IH in H. destruct (run_le k hi s) as [H1 H2].
      rewrite length_drop in H by lia. cbn [min_len max_len]. lia.
Qed.

Lemma match_here_chars (p : Re.pattern) :
  forall prev s n i,
    Re.match_here p prev s = Some n -> i < n ->
    exists c k, String.get i s = Some c /\ In k (classes p)
                /\ Re.cls_match k c = true.
Proof.
  induction p as [|it p IH]; intros prev s n i H Hi.
  - inversion H. lia.
  - destruct it as [|k lo hi].
    + cbn [Re.match_here] in H. destruct (Re.at_boundary prev s);
        [|discriminate].
      exact (IH _ _ _ _ H Hi).
    + apply match_rep_inv in H. destruct H as (j & r & Hj & -> & H).
      destruct (Nat.lt_ge_cases i j) as [Hlt|Hge].
      * destruct (run_get k hi s i ltac:(lia)) as (c & Hc & Hm).
        exists c, k. split; [exact Hc|]. split; [now left|exact Hm].
      * destruct (IH _ _ _ (i - j) H ltac:(lia)) as (c & k' & Hc & Hk & Hm).
        rewrite get_drop in Hc. replace (j + (i - j)) with i in Hc by lia.
        exists c, k'. split; [exact Hc|]. split; [now right|exact Hm].
Qed.

Lemma all_chars_take (f : ascii -> bool) (n : nat) :
  forall s,
    (forall i, i < n -> exists c, String.get i s = Some c /\ f c = true) ->
    all_chars f (PyStr.take n s) = true.
Proof.
  induction n as [|n IH]; intros s H; [reflexivity|].
  destruct (H 0 ltac:(lia)) as (c & Hc & Hf).
  destruct s as [|a t]; [discriminate|]. simpl in Hc. inversion Hc; subst a.
  cbn [PyStr.take all_chars]. rewrite Hf. cbn [andb]. apply IH.
  intros i Hi. apply (H (S i)). lia.
Qed.

Lemma phone_pattern_bounds (p : Re.pattern) :
  In p phone_patterns ->
  9 <= min_len p /\ max_len p <= 12
  /\ (exists c rest,
         p = Re.Boundary :: Re.one (Re.Lit c) :: rest
         /\ (c = "0"%char \/ c = "6"%char))
  /\ (forall k c, In k (classes p) -> Re.cls_match k c = true ->
                  phone_char c = true).
Proof.
  intros H. unfold phone_patterns in H. cbn [In] in H.
  assert (Hd : forall c, PyStr.isdecimal c = true -> phone_char c = true).
  { intros c Hc. unfold phone_char. now rewrite Hc. }
  assert (Hs : forall c, Re.cls_match Re.DashOrSpace c = true ->
                         phone_char c = true).
  { intros c Hc. unfold phone_char. unfold Re.cls_match in Hc.
    apply orb_true_iff in Hc. destruct Hc as [Hc|Hc]; rewrite Hc;
      [now rewrite orb_true_r|now rewrite !orb_true_r]. }
  assert (Hl : forall a c, phone_char a = true ->
                           Re.cls_match (Re.Lit a) c = true ->
                           phone_char c = true).
  { intros a c Ha Hc. unfold Re.cls_match in Hc. apply Ascii.eqb_eq in Hc.
    now subst c. }
  destruct H as [H|[H|[H|[H|[]]]]]; subst p;
    (split; [cbn; lia|]); (split; [cbn; lia|]);
    (split; [do 2 eexists; split; [reflexivity|auto]|]);
    intros k c Hk Hm; cbn in Hk;
    repeat (destruct Hk as [<-|Hk];
            [first [apply Hd; exact Hm
                   |apply Hs; exact Hm
                   |eapply Hl; [|exact Hm]; reflexivity]|]);
    contradiction.
Qed.

Lemma phone_candidate_is_match (raw_html c : string) :
  In c (extract_phone_candidates_from_html raw_html) ->
  exists p i n prev,
    In p phone_patterns
    /\ c = PyStr.slice i n raw_html
    /\ Re.match_here p prev (PyStr.drop i raw_html) = Some n
    /\ In (i, n) (Re.spans p raw_html).
Proof.
  rewrite extract_phone_candidates_unfold, fold_add_candidate_nil.
  rewrite first_seen_in, in_concat. intros (l & Hl & Hc).
  apply in_map_iff in Hl. destruct Hl as (p & <- & Hp).
  rewrite (finditer_strip p raw_html Hp) in Hc.
  unfold Re.finditer in Hc. apply in_map_iff in Hc.
  destruct Hc as ([i n] & <- & Hin). cbn [fst snd].
  pose proof Hin as Hsp. unfold Re.spans in Hin. apply scan_in in Hin.
  destruct Hin as (_ & prev & Hm). rewrite Nat.sub_0_r in Hm.
  exists p, i, n, prev. auto.
Qed.

(** X11. Every phone candidate is a piece of the markup, found by one of
    the four patterns: 9 to 12 characters long, starting with [0] or [6],
    ending with a decimal digit, and made of decimal digits, dashes and
    blanks only (so a masked number with asterisks is never a candidate);
    the empty markup has no candidate. *)
Theorem phone_candidate_shape (raw_html c : string) :
  In c (extract_phone_candidates_from_html raw_html) ->
  (exists i, c = PyStr.slice i (String.length c) raw_html
             /\ i + String.length c <= String.length raw_html)
  /\ 9 <= String.length c <= 12
  /\ (PyStr.head c = Some "0"%char \/ PyStr.head c = Some "6"%char)
  /\ (exists d, PyStr.last_or None c = Some d /\ PyStr.isdecimal d = true)
  /\ all_chars phone_char c = true
  /\ extract_phone_candidates_from_html "" = [].
Proof.
  intros H. apply phone_candidate_is_match in H.
  destruct H as (p & i & n & prev & Hp & -> & Hm & Hsp).
  destruct (phone_pattern_bounds p Hp)
    as (Hmin & Hmax & (c0 & rest & E1 & Hc0) & Hcls).
  destruct (phone_pattern_shape p Hp)
    as (_ & _ & pre & lo & hi & _ & _ & E2).
  destruct (match_here_bounds p _ _ _ Hm) as [Hb Hlen].
  assert (Hi : i <= String.length raw_html).
  { destruct (Nat.le_gt_cases i (String.length raw_html)) as [Hle|Hgt];
      [exact Hle|].
    exfalso. assert (Hd : forall j s, String.length s < j -> PyStr.drop j s = "").
    { clear. induction j as [|j IH]; intros s H; [lia|].
      destruct s as [|a t]; [reflexivity|]. simpl in *. apply IH. lia. }
    rewrite (Hd _ _ Hgt) in Hlen. simpl in Hlen. lia. }
  rewrite length_drop in Hlen by exact Hi.
  unfold PyStr.slice. rewrite length_take
    by (rewrite length_drop by exact Hi; lia).
  split; [exists i; split; [reflexivity|lia]|]. split; [lia|]. split.
  - pose proof Hm as Hm1. rewrite E1 in Hm1. apply match_first_char in Hm1.
    rewrite Hm1. destruct Hc0 as [->| ->]; auto.
  - split.
    + pose proof Hm as Hm2. rewrite E2 in Hm2. apply match_last_char in Hm2.
      destruct Hm2 as (m & d & -> & Hg & Hd). exists d.
      split; [now apply last_or_take|exact Hd].
    + split; [|reflexivity]. apply all_chars_take. intros j Hj.
      destruct (match_here_chars p _ _ _ j Hm Hj) as (ch & k & Hg & Hk & Hmk).
      exists ch. split; [exact Hg|]. exact (Hcls k ch Hk Hmk).
Qed.

Lemma take_prefix (n : nat) :
  forall s, exists rest, s = (PyStr.take n s ++ rest)%string.
Proof.
  induction n as [|n IH]; intros s; [exists s; now destruct s|].
  destruct s as [|a t]; [exists ""; reflexivity|].
  destruct (IH t) as (rest & E). exists rest. cbn [PyStr.take].
  cbn [String.append]. now rewrite <- E.
Qed.

Lemma take_all (n : nat) :
  forall s, String.length s <= n -> PyStr.take n s = s.
Proof.
  induction n as [|n IH]; intros s H; destruct s as [|a t]; simpl in *;
    try reflexivity; try lia.
  rewrite IH; [reflexivity|lia].
Qed.

Lemma length_take_min (n : nat) :
  forall s, String.length (PyStr.take n s) = Nat.min n (String.length s).
Proof.
  induction n as [|n IH]; intros s; destruct s as [|a t]; simpl; auto.
Qed.

(** X12. The content sent to the collaborator, [page_text[:budget]], is a
    prefix of the page text: the whole text when the budget is not below
    its length, its first [budget] characters when the budget is between 0
    and the length; a negative budget does not empty it but cuts that many
    characters off its end. *)
Theorem content_is_truncated_prefix (budget : Z) (page_text : string) :
  let content := PyStr.slice_to budget page_text in
  let len := Z.of_nat (String.length page_text) in
  (exists rest, page_text = (content ++ rest)%string)
  /\ Z.of_nat (String.length content)
     = (if (0 <=? budget)%Z then Z.min budget len
        else Z.max 0 (len + budget))%Z
  /\ ((len <= budget)%Z -> content = page_text).
Proof.
  intros content len. subst content. unfold PyStr.slice_to.
  split; [destruct (0 <=? budget)%Z; apply take_prefix|]. split.
  - destruct (0 <=? budget)%Z eqn:E; rewrite length_take_min; subst len.
    + apply Z.leb_le in E. lia.
    + apply Z.leb_gt in E. lia.
  - intros Hle. assert (E : (0 <=? budget)%Z = true) by (apply Z.leb_le; lia).
    rewrite E. apply take_all. subst len. lia.
Qed.

(* ================================================================== *)
(** ** Further properties: statuses and token counts *)

(** The loop ends with the record of the first attempt that succeeds, or
    with none when every attempt that remains fails. *)
Lemma gemini_loop_found (client : Client) (url : string)
      (cands : list string) (content : string) (n : nat) :
  forall v s,
    Z.to_nat (GEMINI_MAX_ATTEMPTS - attempts v) = n ->
    exists v' found s',
      gemini_loop client url cands content v s = (Return (v', found), s')
      /\ match found with
         | Some rec =>
             exists k d,
               (k < n)%nat
               /\ all_attempts_fail k client cands content s
               /\ attempt_succeeds client cands content
                                   (after_attempts k client cands content s) d
               /\ rec = record_of url d
         | None => all_attempts_fail n client cands content s
         end.
Proof.
  induction n as [|n IH]; intros v s Hn.
  - rewrite gemini_loop_done by lia. do 3 eexists.
    split; [reflexivity|exact I].
  - rewrite gemini_loop_step by lia. cbn zeta. rewrite gemini_attempt_eq.
    destruct (fst (gemini_answer client cands content s)) as [response|e]
      eqn:A.
    + destruct (parsed_object response) as [d|] eqn:P; cbn [option_map].
      * do 3 eexists. split; [reflexivity|]. exists 0%nat, d.
        split; [lia|]. split; [exact I|]. split; [|reflexivity].
        cbn [after_attempts]. unfold attempt_succeeds. now rewrite A.
      * cbn [attempts usage gemini_duration].
        match goal with
        | |- context [gemini_loop _ _ _ _ ?v3 _] =>
            destruct (IH v3 (after_attempt client cands content s))
              as (v' & found & s' & E' & Hf); [cbn [attempts]; lia|]
        end.
        rewrite E'. exists v', found, s'. split; [reflexivity|].
        assert (Hfail : attempt_fails client cands content s).
        { unfold attempt_fails. now rewrite A. }
        destruct found as [rec|].
        -- destruct Hf as (k & d & Hk & Hall & Hs & ->).
           exists (S k), d. split; [lia|]. split; [split; assumption|].
           split; [exact Hs|reflexivity].
        -- split; assumption.
    + cbn [attempts usage gemini_duration].
      destruct (IH (mkVars (attempts v + 1) (usage v) (gemini_duration v))
                   (after_attempt client cands content s))
        as (v' & found & s' & E' & Hf); [cbn [attempts]; lia|].
      rewrite E'. exists v', found, s'. split; [reflexivity|].
      assert (Hfail : attempt_fails client cands content s).
      { unfold attempt_fails. now rewrite A. }
      destruct found as [rec|].
      * destruct Hf as (k & d & Hk & Hall & Hs & ->).
        exists (S k), d. split; [lia|]. split; [split; assumption|].
        split; [exact Hs|reflexivity].
      * split; assumption.
Qed.

(** X13. The pipeline gives a record one of three statuses and no other.
    CRAWL_FAILED exactly when the fetch failed, and then, and only then,
    the crawl and total durations are null. SUCCESS only when the fetch
    returned a page and, after some attempts that failed, an attempt within
    the maximum got an answer that decodes to an object: the record is then
    the URL with the declared fields of that object and the meta object.
    GEMINI_CALL_FAILED only when the fetch returned a page and every attempt
    failed. With a status other than SUCCESS the record is the URL-only
    record with the meta object. *)
Theorem process_url_statuses (url : string) (client : Client) (s : state) :
  exists rec meta s' status,
    process_url url client s = (Return rec, s')
    /\ Dict.get rec "meta" = Some meta
    /\ json_get meta "status_key" = Some (JStr status)
    /\ (status = "CRAWL_FAILED" \/ status = "GEMINI_CALL_FAILED"
        \/ status = "SUCCESS")
    /\ (status = "CRAWL_FAILED" <-> fetch_failure url s)
    /\ (json_get meta "crawl_duration_sec" = Some JNull <-> fetch_failure url s)
    /\ (json_get meta "total_duration_sec" = Some JNull <-> fetch_failure url s)
    /\ (status = "SUCCESS" ->
        exists page_text raw_html crawl_duration s1 k d,
          fetch_page_text_and_html url s
          = (Return (page_text, raw_html, crawl_duration), s1)
          /\ (Z.of_nat k < GEMINI_MAX_ATTEMPTS)%Z
          /\ all_attempts_fail
               k client (extract_phone_candidates_from_html raw_html)
               (PyStr.slice_to MAX_CONTENT_CHARS page_text) (after_clock s1)
          /\ attempt_succeeds
               client (extract_phone_candidates_from_html raw_html)
               (PyStr.slice_to MAX_CONTENT_CHARS page_text)
               (after_attempts
                  k client (extract_phone_candidates_from_html raw_html)
                  (PyStr.slice_to MAX_CONTENT_CHARS page_text)
                  (after_clock s1))
               d
          /\ rec = attach_meta (record_of url d) meta)
    /\ (status = "GEMINI_CALL_FAILED" ->
        exists page_text raw_html crawl_duration s1,
          fetch_page_text_and_html url s
          = (Return (page_text, raw_html, crawl_duration), s1)
          /\ all_attempts_fail
               (Z.to_nat GEMINI_MAX_ATTEMPTS) client
               (extract_phone_candidates_from_html raw_html)
               (PyStr.slice_to MAX_CONTENT_CHARS page_text) (after_clock s1))
    /\ (status <> "SUCCESS" -> rec = attach_meta (empty_record url) meta)
    /\ (status <> "SUCCESS" -> url_only url rec).
Proof.
  destruct (fetch_page_text_and_html url s) as [[[[pt rh] cd]|e] s1] eqn:E.
  - assert (Hnf : ~ fetch_failure url s).
    { intros Hf. apply fetch_failure_raises in Hf.
      destruct Hf as (e & s2 & Hf). congruence. }
    rewrite (process_url_fetched _ _ _ _ _ _ _ E).
    destruct (gemini_loop_found client url
                (extract_phone_candidates_from_html rh)
                (PyStr.slice_to MAX_CONTENT_CHARS pt)
                (Z.to_nat (GEMINI_MAX_ATTEMPTS - 0))
                (mkVars 0 None None) (after_clock s1) eq_refl)
      as (v & found & s2 & El & Hfound).
    unfold bind at 1. rewrite (extract_with_gemini_eq _ _ _ _ _ _ _ _ _ El).
    unfold ret. destruct found as [rec|].
    + destruct Hfound as (k & d & Hk & Hall & Hs & ->).
      do 3 eexists. exists "SUCCESS". split; [reflexivity|].
      split; [apply attach_meta_meta|]. split; [reflexivity|].
      split; [auto|]. split; [split; [discriminate|contradiction]|].
      split; [split; [discriminate|contradiction]|].
      split; [split; [discriminate|contradiction]|].
      split.
      * intros _. exists pt, rh, cd, s1, k, d. split; [reflexivity|].
        split; [lia|]. split; [exact Hall|]. split; [exact Hs|reflexivity].
      * split; [discriminate|]. split; congruence.
    + do 3 eexists. exists "GEMINI_CALL_FAILED". split; [reflexivity|].
      split; [apply attach_meta_meta|]. split; [reflexivity|].
      split; [auto|]. split; [split; [discriminate|contradiction]|].
      split; [split; [discriminate|contradiction]|].
      split; [split; [discriminate|contradiction]|].
      split; [discriminate|]. split.
      * intros _. exists pt, rh, cd, s1. split; [reflexivity|].
        rewrite Z.sub_0_r in Hfound. exact Hfound.
      * split; [reflexivity|]. intros _.
        apply attach_meta_url_only, empty_record_url_only.
  - assert (Hf : fetch_failure url s).
    { apply fetch_failure_raises. eauto. }
    rewrite (process_url_fetch_failed _ _ _ _ _ E).
    do 3 eexists. exists "CRAWL_FAILED". split; [reflexivity|].
    split; [apply attach_meta_meta|]. split; [reflexivity|].
    split; [auto|]. split; [split; auto|].
    split; [split; [auto|reflexivity]|].
    split; [split; [auto|reflexivity]|].
    split; [discriminate|]. split; [discriminate|].
    split; [reflexivity|]. intros _.
    apply attach_meta_url_only, empty_record_url_only.
Qed.

Lemma gemini_loop_succeeds_usage (client : Client) (url : string)
      (cands : list string) (content : string) (d : Dict.dict json)
      (response : Response) (k : nat) :
  forall v s,
    all_attempts_fail k client cands content s ->
    fst (gemini_answer client cands content
                       (after_attempts k client cands content s))
    = Return response ->
    parsed_object response = Some d ->
    (attempts v + Z.of_nat k < GEMINI_MAX_ATTEMPTS)%Z ->
    exists v',
      gemini_loop client url cands content v s
      = (Return (v', Some (record_of url d)),
         after_attempts (S k) client cands content s)
      /\ attempts v' = (attempts v + Z.of_nat k + 1)%Z
      /\ (forall um, usage_metadata response = Some um -> usage v' = Some um)
      /\ (usage_metadata response = None -> k = 0%nat -> usage v' = usage v).
Proof.
  induction k as [|k IH]; intros v s Hall Hr Hd Hlt.
  - rewrite gemini_loop_step by lia. cbn zeta. rewrite gemini_attempt_eq.
    cbn [after_attempts] in *. rewrite Hr, Hd. cbn [option_map].
    eexists. split; [reflexivity|]. cbn [attempts usage]. split; [lia|].
    split; [intros um Hu; now rewrite Hu|intros Hu _; now rewrite Hu].
  - rewrite gemini_loop_step by lia. cbn zeta. destruct Hall as [Hf Hall].
    destruct (gemini_attempt_spec client url cands content
                (mkVars (attempts v + 1) (usage v) (gemini_duration v)) s)
      as (v2 & found & E & Hatt & Hiff & _).
    rewrite E. apply Hiff in Hf. subst found.
    destruct (IH (mkVars (attempts v + 1) (usage v2) (gemini_duration v2))
                 (after_attempt client cands content s) Hall Hr Hd)
      as (v' & E' & Hv' & Hu & _); [cbn [attempts]; lia|].
    cbn [attempts] in *. rewrite E'. eexists. split; [reflexivity|].
    split; [lia|]. split; [exact Hu|]. intros _ H0. discriminate.
Qed.

(** X14. When the attempt that succeeds got a response with usage
    metadata, the token counts of the SUCCESS record are the three counts
    of that response, whatever earlier attempts reported; when the first
    attempt succeeds with a response without usage metadata, the token
    counts are null. *)
Theorem success_reports_usage_of_response (client : Client)
        (url page_text raw_html : string) (crawl_duration : float)
        (s : state) (k : nat) (response : Response) (d : Dict.dict json) :
  let cands := extract_phone_candidates_from_html raw_html in
  let content := PyStr.slice_to MAX_CONTENT_CHARS page_text in
  all_attempts_fail k client cands content (after_clock s) ->
  fst (gemini_answer client cands content
                     (after_attempts k client cands content (after_clock s)))
  = Return response ->
  parsed_object response = Some d ->
  (Z.of_nat k < GEMINI_MAX_ATTEMPTS)%Z ->
  exists meta s',
    extract_with_gemini client url page_text raw_html crawl_duration s
    = (Return (record_of url d, meta), s')
    /\ json_get meta "status_key" = Some (JStr "SUCCESS")
    /\ (forall um,
          usage_metadata response = Some um ->
          json_get meta "gemini_prompt_tokens"
          = Some (opt_json JInt (prompt_token_count um))
          /\ json_get meta "gemini_response_tokens"
             = Some (opt_json JInt (candidates_token_count um))
          /\ json_get meta "gemini_total_tokens"
             = Some (opt_json JInt (total_token_count um)))
    /\ (usage_metadata response = None -> k = 0%nat ->
        json_get meta "gemini_prompt_tokens" = Some JNull
        /\ json_get meta "gemini_response_tokens" = Some JNull
        /\ json_get meta "gemini_total_tokens" = Some JNull).
Proof.
  intros cands content Hall Hr Hd Hlt.
  destruct (gemini_loop_succeeds_usage client url cands content d response k
              (mkVars 0 None None) (after_clock s) Hall Hr Hd)
    as (v & E & _ & Hu & Hn); [cbn [attempts]; lia|].
  rewrite (extract_with_gemini_eq _ _ _ _ _ _ _ _ _ E).
  do 2 eexists. split; [reflexivity|]. split; [reflexivity|]. split.
  - intros um Hum. apply Hu in Hum. cbn. rewrite Hum. repeat split.
  - intros Hnone Hk. cbn [usage] in Hn. cbn. rewrite (Hn Hnone Hk).
    repeat split.
Qed.

(** X15. Token counts can be those of an attempt that failed: when the
    first attempt got a response with usage metadata that did not decode to
    an object, and the second attempt succeeds with a response without
    usage metadata, the SUCCESS record has an attempt count of 2 and the
    token counts of the first response. *)
Theorem usage_of_failed_attempt_is_kept (client : Client)
        (url page_text raw_html : string) (crawl_duration : float)
        (s : state) (r1 r2 : Response) (um : Usage) (d : Dict.dict json) :
  let cands := extract_phone_candidates_from_html raw_html in
  let content := PyStr.slice_to MAX_CONTENT_CHARS page_text in
  let s1 := after_clock s in
  fst (gemini_answer client cands content s1) = Return r1 ->
  parsed_object r1 = None ->
  usage_metadata r1 = Some um ->
  fst (gemini_answer client cands content
                     (after_attempt client cands content s1)) = Return r2 ->
  parsed_object r2 = Some d ->
  usage_metadata r2 = None ->
  (2 <= GEMINI_MAX_ATTEMPTS)%Z ->
  exists meta s',
    extract_with_gemini client url page_text raw_html crawl_duration s
    = (Return (record_of url d, meta), s')
    /\ json_get meta "status_key" = Some (JStr "SUCCESS")
    /\ json_get meta "gemini_attempts" = Some (JInt 2)
    /\ json_get meta "gemini_prompt_tokens"
       = Some (opt_json JInt (prompt_token_count um))
    /\ json_get meta "gemini_response_tokens"
       = Some (opt_json JInt (candidates_token_count um))
    /\ json_get meta "gemini_total_tokens"
       = Some (opt_json JInt (total_token_count um)).
Proof.
  intros cands content s1 H1 P1 U1 H2 P2 U2 Hmax.
  assert (E : exists v,
             gemini_loop client url cands content (mkVars 0 None None) s1
             = (Return (v, Some (record_of url d)),
                after_attempt client cands content
                              (after_attempt client cands content s1))
             /\ attempts v = 2%Z /\ usage v = Some um).
  { rewrite gemini_loop_step by (cbn [attempts]; lia). cbn zeta.
    rewrite gemini_attempt_eq, H1, P1, U1. cbn [option_map attempts usage
                                                 gemini_duration].
    rewrite gemini_loop_step by (cbn [attempts]; lia). cbn zeta.
    rewrite gemini_attempt_eq, H2, P2, U2. cbn [option_map attempts usage
                                                 gemini_duration].
    eexists. split; [reflexivity|]. split; reflexivity. }
  destruct E as (v & E & Ha & Hu).
  rewrite (extract_with_gemini_eq _ _ _ _ _ _ _ _ _ E).
  do 2 eexists. split; [reflexivity|]. split; [reflexivity|].
  cbn. rewrite Ha, Hu. repeat split.
Qed.

End Pipeline.

(* ================================================================== *)
(** ** The properties in the small world *)

#[local] Abbreviation demo_state := (mkState nat 0 []).

#[local] Abbreviation demo_fetch :=
  (fetch_page_text_and_html nat Demo.arun Demo.perf_counter).

#[local] Abbreviation demo_process_url max :=
  (process_url nat Demo.arun Demo.generate_content Demo.perf_counter
               Demo.utcnow_isoformat Demo.json_loads 20000
               "gemini-2.5-flash-lite" max).

#[local] Abbreviation demo_extract max :=
  (extract_with_gemini nat Demo.generate_content Demo.perf_counter
                       Demo.utcnow_isoformat Demo.json_loads 20000
                       "gemini-2.5-flash-lite" max).

#[local] Abbreviation demo_main_to out env :=
  (main nat Demo.arun Demo.crawler_start Demo.crawler_close Demo.write_text
        Demo.generate_content Demo.perf_counter Demo.utcnow_isoformat
        Demo.json_loads env out 20000 "gemini-2.5-flash-lite" 2).

#[local] Abbreviation demo_main env := (demo_main_to "output.json" env).

Lemma demo_session_ok :
  crawler_session_ok nat Demo.crawler_start Demo.crawler_close.
Proof. split; intros w; reflexivity. Qed.

Lemma demo_write_ok : write_ok nat Demo.write_text "output.json".
Proof. intros results w. reflexivity. Qed.

(** The run of the five-line file: two URLs, two records in file order, the
    first extracted and the second a crawl failure. *)
Example demo_run :
  exists s' rec1 rec2 meta1 meta2,
    demo_main Demo.environ (Some Demo.urls_txt) demo_state = (Return tt, s')
    /\ last (events nat s') (EvGetenv "")
       = EvWriteOutput "output.json" [rec1; rec2]
    /\ Dict.get rec1 "url" = Some (JStr Demo.listing_url)
    /\ Dict.get rec2 "url" = Some (JStr Demo.down_url)
    /\ Dict.get rec1 "meta" = Some meta1
    /\ Dict.get rec2 "meta" = Some meta2
    /\ json_get meta1 "status_key" = Some (JStr "SUCCESS")
    /\ json_get meta1 "gemini_attempts" = Some (JInt 1)
    /\ json_get meta2 "status_key" = Some (JStr "CRAWL_FAILED").
Proof.
  do 5 eexists. split; [vm_compute; reflexivity|].
  split; [vm_compute; reflexivity|]. repeat split; reflexivity.
Qed.


Lemma fetch_failure_record_witness :
  exists rec s',
    demo_process_url 2 Demo.down_url Demo.client demo_state = (Return rec, s')
    /\ url_only Demo.down_url rec.
Proof.
  destruct (fetch_failure_record nat Demo.arun Demo.generate_content
              Demo.perf_counter Demo.utcnow_isoformat Demo.json_loads 20000
              "gemini-2.5-flash-lite" 2 Demo.down_url Demo.client demo_state)
    as (rec & meta & s' & E & _ & _ & _ & _ & _ & _ & _ & Hu & _).
  - right. exact I.
  - exists rec, s'. split; assumption.
Defined.

Lemma extraction_exhausted_record_witness :
  exists meta s',
    demo_process_url 2 Demo.thin_url Demo.client demo_state
    = (Return (attach_meta (empty_record Demo.thin_url) meta), s')
    /\ json_get meta "gemini_attempts" = Some (JInt 2).
Proof.
  assert (H1 : demo_fetch Demo.thin_url demo_state
               = (Return ("cleaned", "<i>raw</i>", 0%float),
                  mkState nat 1 [EvCrawl Demo.thin_url])) by reflexivity.
  destruct (extraction_exhausted_record nat Demo.arun Demo.generate_content
              Demo.perf_counter Demo.utcnow_isoformat Demo.json_loads 20000
              "gemini-2.5-flash-lite" 2 Demo.thin_url Demo.client demo_state
              _ _ _ _ H1)
    as (meta & s' & E & _ & _ & _ & Ha & _).
  - vm_compute. auto.
  - exists meta, s'. split; assumption.
Defined.

Lemma no_attempt_when_max_not_positive_witness :
  exists meta s',
    demo_extract 0 Demo.client Demo.listing_url "Listing" "<p></p>" 0%float
                 demo_state
    = (Return (empty_record Demo.listing_url, meta), s')
    /\ events nat s' = []
    /\ json_get meta "gemini_attempts" = Some (JInt 0).
Proof.
  destruct (no_attempt_when_max_not_positive nat Demo.generate_content
              Demo.perf_counter Demo.utcnow_isoformat Demo.json_loads 20000
              "gemini-2.5-flash-lite" 0 Demo.client Demo.listing_url "Listing"
              "<p></p>" 0%float demo_state)
    as (meta & s' & E & Hev & _ & _ & _ & Hmax & _).
  - apply Z.le_refl.
  - exists meta, s'. split; [exact E|]. split; [exact Hev|].
    apply Hmax. reflexivity.
Defined.

Lemma main_one_record_per_url_witness :
  exists s' s1 results,
    demo_main Demo.environ (Some Demo.urls_txt) demo_state = (Return tt, s')
    /\ events nat s'
       = events nat s1 ++ [EvCrawlerClose; EvWriteOutput "output.json" results]
    /\ urls_of results
       = [Some (JStr Demo.listing_url); Some (JStr Demo.down_url)].
Proof.
  pose proof (main_one_record_per_url nat Demo.crawler_start
                Demo.crawler_close Demo.write_text Demo.perf_counter
                Demo.utcnow_isoformat Demo.environ "output.json"
                "gemini-2.5-flash-lite" (demo_process_url 2) Demo.urls_txt
                "secret" demo_state eq_refl demo_session_ok demo_write_ok)
    as H.
  cbv zeta in H.
  destruct H as [[H _]|(_ & results & s1 & s' & E & _ & _ & Hev & _ & Hu & _)].
  - vm_compute in H. discriminate.
  - exists s', s1, results. split; [exact E|]. split; [exact Hev|].
    apply Hu, process_url_keeps_url.
Defined.

Lemma main_no_urls_returns_early_witness :
  demo_main Demo.no_environ (Some Demo.comments_txt) demo_state
  = (Return tt, demo_state).
Proof.
  apply main_no_urls_returns_early. intros line Hin. simpl in Hin.
  destruct Hin as [<-|[<-|[<-|[<-|[]]]]]; vm_compute; auto.
Defined.


(** C4 as stated fails: with a maximum of -1 no attempt is left to make, the
    record is the one of an exhausted extraction, and the attempt count it
    records is 0, not the configured maximum. *)
Lemma attempt_count_counterexample :
  exists rec meta s',
    all_attempts_fail nat Demo.generate_content Demo.perf_counter
                      Demo.json_loads "gemini-2.5-flash-lite"
                      (Z.to_nat (-1)) Demo.client
                      (extract_phone_candidates_from_html
                         "<p>Call 017-787 0260 now</p>")
                      "Listing" (mkState nat 1 [EvCrawl Demo.listing_url])
    /\ demo_process_url (-1) Demo.listing_url Demo.client demo_state
       = (Return rec, s')
    /\ Dict.get rec "meta" = Some meta
    /\ json_get meta "status_key" = Some (JStr "GEMINI_CALL_FAILED")
    /\ json_get meta "gemini_attempts" = Some (JInt 0)
    /\ json_get meta "gemini_attempts" <> Some (JInt (-1)).
Proof.
  do 3 eexists. split; [exact I|].
  split; [vm_compute; reflexivity|].
  repeat split; try reflexivity. discriminate.
Qed.

(** C1 as stated fails: the run does not always complete. With an output
    file name that names no file the two URLs are processed and the write
    raises, so the run ends in that exception; with no credential in the
    environment the run ends in RuntimeError before any URL is fetched, and
    nothing is written. *)
Lemma main_run_fails_counterexample :
  (exists msg s',
     demo_main_to "" Demo.environ (Some Demo.urls_txt) demo_state
     = (Raise (OSError msg), s')
     /\ crawled (events nat s') = [Demo.listing_url; Demo.down_url])
  /\ (exists msg s',
        demo_main Demo.no_environ (Some Demo.urls_txt) demo_state
        = (Raise (RuntimeError msg), s')
        /\ crawled (events nat s') = []
        /\ written (events nat s') = []).
Proof.
  split; do 2 eexists; (split; [vm_compute; reflexivity|]);
    repeat split; reflexivity.
Qed.

(** C9 as stated fails: the guarantee that the recorded attempt count is
    the configured maximum does not need a maximum of at least 1. With a
    maximum of 0, which is less than 1, no call is made and the count
    recorded, 0, is the configured maximum. *)
Lemma max_zero_counterexample :
  exists meta s',
    ~ (1 <= 0)%Z
    /\ demo_extract 0 Demo.client Demo.listing_url "Listing" "<p></p>" 0%float
                    demo_state
       = (Return (empty_record Demo.listing_url, meta), s')
    /\ generated (events nat s') = 0%nat
    /\ json_get meta "status_key" = Some (JStr "GEMINI_CALL_FAILED")
    /\ json_get meta "gemini_attempts" = Some (JInt 0).
Proof.
  do 2 eexists. split; [lia|].
  split; [vm_compute; reflexivity|]. repeat split; reflexivity.
Qed.

(* ================================================================== *)
(** ** The further properties in the small world *)

#[local] Abbreviation demo_extract_with gen max :=
  (extract_with_gemini nat gen Demo.perf_counter Demo.utcnow_isoformat
                       Demo.json_loads 20000 "gemini-2.5-flash-lite" max).

Lemma read_urls_are_stripped_witness :
  read_urls [" #kept"; "#dropped"; "   "] = ["#kept"]
  /\ PyStr.strip Demo.listing_url = Demo.listing_url
  /\ events nat (snd (demo_fetch Demo.listing_url demo_state))
     = [EvCrawl Demo.listing_url].
Proof.
  destruct (read_urls_are_stripped nat Demo.arun Demo.perf_counter)
    as (_ & _ & Hk & Hin).
  split.
  - rewrite (Hk " "%char "#kept" ["#dropped"; "   "]).
    + reflexivity.
    + reflexivity.
    + vm_compute. discriminate.
  - destruct (Hin Demo.urls_txt Demo.listing_url demo_state)
      as (_ & Hs & _ & _ & Hev).
    + vm_compute. auto.
    + split; [exact Hs|exact Hev].
Defined.

Lemma main_aborts_without_credential_witness :
  exists msg s',
    demo_main Demo.no_environ (Some Demo.urls_txt) demo_state
    = (Raise (RuntimeError msg), s')
    /\ events nat s'
       = [EvGetenv "GEMINI_API_KEY"; EvGetenv "GOOGLE_API_KEY"].
Proof.
  destruct (main_aborts_without_credential nat Demo.arun Demo.crawler_start
              Demo.crawler_close Demo.write_text Demo.generate_content
              Demo.perf_counter Demo.utcnow_isoformat Demo.json_loads
              Demo.no_environ "output.json" 20000 "gemini-2.5-flash-lite" 2
              Demo.urls_txt demo_state)
    as (msg & s' & E & _ & Hev).
  - reflexivity.
  - vm_compute. discriminate.
  - exists msg, s'. split; [exact E|exact Hev].
Defined.

Lemma extraction_succeeds_at_attempt_witness :
  exists meta s',
    demo_extract_with Demo.flaky_generate_content 2 Demo.client
                      Demo.listing_url "Listing" "<p></p>" 0%float demo_state
    = (Return (record_of Demo.listing_url [], meta), s')
    /\ json_get meta "gemini_attempts" = Some (JInt 2).
Proof.
  destruct (extraction_succeeds_at_attempt nat Demo.flaky_generate_content
              Demo.perf_counter Demo.utcnow_isoformat Demo.json_loads 20000
              "gemini-2.5-flash-lite" 2 Demo.client Demo.listing_url "Listing"
              "<p></p>" 0%float demo_state 1 [])
    as (meta & s' & f & E & _ & _ & _ & _ & Ha & _).
  - vm_compute. auto.
  - vm_compute. reflexivity.
  - reflexivity.
  - exists meta, s'. split; [exact E|exact Ha].
Defined.

Lemma exhausted_duration_null_iff_no_answer_witness :
  exists meta s',
    demo_extract 2 Demo.client Demo.listing_url "unknown" "<p></p>" 0%float
                 demo_state
    = (Return (empty_record Demo.listing_url, meta), s')
    /\ json_get meta "gemini_duration_sec" = Some JNull.
Proof.
  destruct (exhausted_duration_null_iff_no_answer nat Demo.generate_content
              Demo.perf_counter Demo.utcnow_isoformat Demo.json_loads 20000
              "gemini-2.5-flash-lite" 2 Demo.client Demo.listing_url "unknown"
              "<p></p>" 0%float demo_state)
    as (meta & s' & E & _ & Hd & _).
  - vm_compute. auto.
  - exists meta, s'. split; [exact E|]. apply Hd. vm_compute. auto.
Defined.


Lemma phone_candidate_shape_witness :
  9 <= String.length "017-787 0260" <= 12
  /\ all_chars phone_char "017-787 0260" = true.
Proof.
  destruct (phone_candidate_shape "Call 017-787 0260 now" "017-787 0260")
    as (_ & Hl & _ & _ & Hc & _).
  - vm_compute. auto.
  - split; [exact Hl|exact Hc].
Defined.

Lemma success_reports_usage_of_response_witness :
  exists meta s',
    demo_extract_with Demo.flaky_generate_content 2 Demo.client
                      Demo.listing_url "Listing" "<p></p>" 0%float demo_state
    = (Return (record_of Demo.listing_url [], meta), s')
    /\ json_get meta "gemini_total_tokens" = Some (JInt 10).
Proof.
  destruct (success_reports_usage_of_response nat Demo.flaky_generate_content
              Demo.perf_counter Demo.utcnow_isoformat Demo.json_loads 20000
              "gemini-2.5-flash-lite" 2 Demo.client Demo.listing_url "Listing"
              "<p></p>" 0%float demo_state 1
              (mkResponse (Some "{}")
                          (Some (mkUsage (Some 7%Z) (Some 3%Z) (Some 10%Z))))
              [])
    as (meta & s' & E & _ & Hu & _).
  - vm_compute. auto.
  - reflexivity.
  - reflexivity.
  - reflexivity.
  - exists meta, s'. split; [exact E|].
    destruct (Hu _ eq_refl) as (_ & _ & Ht). exact Ht.
Defined.

Lemma usage_of_failed_attempt_is_kept_witness :
  exists meta s',
    demo_extract_with Demo.terse_generate_content 2 Demo.client
                      Demo.listing_url "Listing" "<p></p>" 0%float demo_state
    = (Return (record_of Demo.listing_url [], meta), s')
    /\ json_get meta "gemini_attempts" = Some (JInt 2)
    /\ json_get meta "gemini_total_tokens" = Some (JInt 10).
Proof.
  destruct (usage_of_failed_attempt_is_kept nat Demo.terse_generate_content
              Demo.perf_counter Demo.utcnow_isoformat Demo.json_loads 20000
              "gemini-2.5-flash-lite" 2 Demo.client Demo.listing_url "Listing"
              "<p></p>" 0%float demo_state
              (mkResponse (Some "Sorry?")
                          (Some (mkUsage (Some 7%Z) (Some 3%Z) (Some 10%Z))))
              (mkResponse (Some "{}") None)
              (mkUsage (Some 7%Z) (Some 3%Z) (Some 10%Z)) [])
    as (meta & s' & E & _ & Ha & _ & _ & Ht).
  - reflexivity.
  - reflexivity.
  - reflexivity.
  - reflexivity.
  - reflexivity.
  - reflexivity.
  - vm_compute. discriminate.
  - exists meta, s'. split; [exact E|]. split; [exact Ha|exact Ht].
Defined.
